(** * mg-rest-hdf5: the adjacency REST front-end ([rest/app.py])

    A shallow embedding of the request handlers of [rest/app.py]
    ([help_usage], [output_tsv], [GetDetails.get], [GetInteractions.get],
    [GetValue.get]) together with the properties of its validation
    pipeline.

    Conventions of the embedding:
    - Python objects that the handlers move around ([None], [str], [int])
      are the type [value]; a [dict] keyed by strings is a [gmap string _];
    - [request.args.get(k)] is a lookup in [args : gmap string string], with
      [None] for an absent key;
    - an exception is a [Raise] result; the calls made on the HDF5 reader
      are recorded, in order, in a trace of [event]s threaded through the
      handler ([M]);
    - a handler returns its payload dictionary; the status of a payload is
      the ['status_code'] entry that [help_usage] writes into it;
    - the reader ([reader.hdf5_adjacency.adjacency]), the [authorized]
      decorator and the builtin [int] on strings live outside
      [rest/app.py]: the reader is a record of operations, the
      decorator's decision is the [user_id] argument of each handler and
      [int] on a string is the parameter [int_of_str]. *)

From Stdlib Require Import ZArith Ascii String List Lia.
From stdpp Require Import gmap strings list fin_maps pretty.

Open Scope Z_scope.

(** ** Python values *)

Inductive value : Type :=
| VNone
| VStr (s : string)
| VInt (z : Z).

#[global] Instance value_eq_dec : EqDecision value.
Proof. solve_decision. Defined.

(** An object held in a list such as [params]: either the user dictionary
    handed over by [authorized] or a plain value. *)
Inductive pyobj : Type :=
| ODict (d : gmap string value)
| OVal (v : value).

Definition is_None (o : pyobj) : bool :=
  match o with
  | OVal VNone => true
  | _ => false
  end.

(** [sum([...])] over a list of booleans. *)
Definition py_sum (l : list bool) : nat :=
  fold_left (fun acc (b : bool) => if b then S acc else acc) l 0%nat.

Definition tab : string := String "009"%char EmptyString.
Definition newline : string := String "010"%char EmptyString.

(** [str(v)] *)
Definition py_str (v : value) : string :=
  match v with
  | VNone => "None"
  | VStr s => s
  | VInt z => pretty z
  end.

(** ** Exceptions and results *)

Inductive exn : Type :=
| ValueError
| TypeError
| KeyError (key : string)
| UnboundLocalError (name : string)
| ReaderError (msg : string).

Inductive result (A : Type) : Type :=
| Ok (a : A)
| Raise (e : exn).
Arguments Ok {A} a.
Arguments Raise {A} e.

(** ** The request and the payloads *)

Record request : Type := {
  base_url : string;
  url_root : string;
  url : string;
  endpoint : string;
  args : gmap string string
}.

(** [request.args.get(k)] *)
Definition args_get (req : request) (k : string) : value :=
  match args req !! k with
  | Some s => VStr s
  | None => VNone
  end.

Record usage_block : Type := {
  usage_self : string;
  usage_parent : string;
  usage_parameters : gmap string (list string)
}.

(** The dictionary built by [help_usage]: the keys ['usage'] and
    ['status_code'] are always there, ['provided_parameters'] and ['error']
    only when they were set. *)
Record message : Type := {
  usage : usage_block;
  status_code : Z;
  provided_parameters : option (gmap string value);
  error : option string
}.

(** ** [help_usage] (lines 51-121) *)

Definition parameters : gmap string (list string) :=
  list_to_map [
    ("file_id", ["File ID"; "str"; "REQUIRED"]);
    ("chrom", ["Chromosome"; "str"; "REQUIRED"]);
    ("start", ["Start"; "int"; "REQUIRED"]);
    ("end", ["End"; "int"; "REQUIRED"]);
    ("res", ["Resolution"; "int"; "REQUIRED"]);
    ("limit_chr", [
       "Limit interactions to interacting with a specific chromosome";
       "str"; "OPTIONAL"]);
    ("limit_start", [
       "Limits interactions based on a region within the chromosome defined by the limit_chr parameter. REQUIRES that limit_chr and limit_end are defined";
       "int"; "OPTIONAL"]);
    ("limit_end", [
       "Limits interactions based on a region within the chromosome defined by the limit_chr parameter. REQUIRES that limit_chr and limit_start are defined";
       "int"; "OPTIONAL"]);
    ("pos_x", ["Position i"; "int"; "REQUIRED"]);
    ("pos_y", ["Position j"; "int"; "REQUIRED"]);
    ("type", ["add_meta|remove_meta"; "str"; "REQUIRED"])
  ].

(** [{k : parameters[k] for k in parameters_required if k in parameters}] *)
Definition used_param (parameters_required : list string)
  : gmap string (list string) :=
  fold_left
    (fun acc k =>
       match parameters !! k with
       | Some d => <[k := d]> acc
       | None => acc
       end)
    parameters_required ∅.

Definition help_usage (req : request)
    (error_message : option string) (status : Z)
    (parameters_required : list string)
    (parameters_provided : gmap string value) : message :=
  {| usage := {| usage_self := base_url req;
                 usage_parent := url_root req +:+ "mug/api/adjacency";
                 usage_parameters := used_param parameters_required |};
     status_code := status;
     (* [if parameters_provided:] an empty dict is falsy *)
     provided_parameters :=
       if decide (parameters_provided = ∅) then None
       else Some parameters_provided;
     error := error_message |}.

(** ** The HDF5 reader ([reader.hdf5_adjacency.adjacency])

    The reader is outside [rest/app.py]; the handlers only rely on the
    operations below, each of which may raise. *)

Record details : Type := {
  chromosomes : list (value * value);
  resolutions : list value
}.

Record interaction : Type := {
  chrA : value;
  startA : value;
  chrB : value;
  startB : value;
  ivalue : value
}.

Record range_data : Type := {
  results : list interaction;
  log : list string
}.

Record reader : Type := {
  handle : Type;
  (* [adjacency(user_id, file_id[, resolution])] *)
  adjacency : value -> value -> option value -> result handle;
  get_details : handle -> result details;
  (* [get_range(chr_id, start, end, limit_chr, limit_start, limit_end,
                value_url, no_links)] *)
  get_range : handle -> value -> value -> value -> value -> value -> value ->
              string -> value -> result range_data;
  get_value : handle -> value -> value -> result value;
  get_chromosome_from_array_index : handle -> value -> result value;
  close : handle -> result unit
}.

(** The calls a handler makes on the reader, in the order it makes them.
    [EOpen] is recorded when the constructor returned a handle. *)
Inductive event : Type :=
| EOpen (user_id file_id : value) (resolution : option value)
| EGetDetails
| EGetRange (chr_id start end_ limit_chr limit_start limit_end : value)
| EGetValue (pos_x pos_y : value)
| EGetChromosome (pos : value)
| EClose.

#[global] Instance event_eq_dec : EqDecision event.
Proof. solve_decision. Defined.

(** ** The handler monad: a result and the trace of reader calls *)

Definition M (A : Type) : Type := list event -> result A * list event.

Definition ret {A} (a : A) : M A := fun t => (Ok a, t).

Definition raise {A} (e : exn) : M A := fun t => (Raise e, t).

Definition bind {A B} (m : M A) (k : A -> M B) : M B :=
  fun t =>
    match m t with
    | (Ok a, t') => k a t'
    | (Raise e, t') => (Raise e, t')
    end.

Notation "'let*' x ':=' m 'in' k" := (bind m (fun x => k))
  (at level 10, x name, m at level 100, k at level 200).

(** A value computed without touching the reader. *)
Definition lift {A} (r : result A) : M A := fun t => (r, t).

(** A method call on an open handle. *)
Definition call {A} (ev : event) (r : result A) : M A :=
  fun t => (r, t ++ [ev]).

Definition open_handle (rd : reader)
    (user_id file_id : value) (resolution : option value) : M (handle rd) :=
  fun t =>
    match adjacency rd user_id file_id resolution with
    | Ok h => (Ok h, t ++ [EOpen user_id file_id resolution])
    | Raise e => (Raise e, t)
    end.

(** [d[k]] on a dictionary. *)
Definition subscript (d : gmap string value) (k : string) : result value :=
  match d !! k with
  | Some v => Ok v
  | None => Raise (KeyError k)
  end.

(** Reading a local variable of the enclosing function: one that no
    executed statement has bound raises [UnboundLocalError]. *)
Definition load_local {A} (name : string) (binding : option A) : result A :=
  match binding with
  | Some a => Ok a
  | None => Raise (UnboundLocalError name)
  end.

(** ** Responses *)

Record range_envelope : Type := {
  env_self : string;
  env_parent : string;
  env_resolution : value;
  env_chr : value;
  env_start : value;
  env_end : value;
  env_limit_chr : value;
  env_limit_start : value;
  env_limit_end : value;
  interaction_count : Z;
  values : list interaction;
  env_log : list string
}.

Record value_envelope : Type := {
  val_self : string;
  val_chrA : value;
  val_chrB : value;
  val_resolution : value;
  val_pos_x : value;
  val_pos_y : value;
  val_value : value
}.

Inductive response : Type :=
| RUsage (m : message)                    (* a [help_usage] payload *)
| RUsageTest                              (* [{"usage": "test"}] *)
| RDetails (self parent : string)
           (chroms : list (value * value)) (res : list value)
| RRange (e : range_envelope)
| RValue (e : value_envelope).

(** ** [output_tsv] (lines 36-49) *)

Record http_response : Type := {
  body : string;
  http_code : Z;
  http_headers : list (string * string)
}.

(** [data["values"]]: only the range envelope has the key. *)
Definition data_values (data : response) : result (list interaction) :=
  match data with
  | RRange e => Ok (values e)
  | _ => Raise (KeyError "values")
  end.

(** The body of the [for] loop: the three [outstr += ...] statements. *)
Definition tsv_step (outstr : string) (v : interaction) : string :=
  let outstr := outstr +:+ (((py_str (chrA v) +:+ tab) +:+ py_str (startA v)) +:+ tab) in
  let outstr := outstr +:+ (((py_str (chrB v) +:+ tab) +:+ py_str (startB v)) +:+ tab) in
  let outstr := outstr +:+ (py_str (ivalue v) +:+ newline) in
  outstr.

(** The function falls off its end (returns [None]) for every endpoint
    other than ["values"]. *)
Definition output_tsv (req : request) (data : response) (code : Z)
    (headers : option (list (string * string)))
  : result (option http_response) :=
  if decide (endpoint req = "values") then
    match data_values data with
    | Ok vs =>
        let outstr := fold_left tsv_step vs "" in
        Ok (Some {| body := outstr; http_code := code;
                    http_headers := default [] headers |})
    | Raise e => Raise e
    end
  else Ok None.

(** ** The handlers *)

Section Handlers.

(** [int(s)] on a string: [None] stands for [ValueError]. *)
Variable int_of_str : string -> option Z.

Variable rd : reader.

(** [int(v)] *)
Definition py_int (v : value) : result value :=
  match v with
  | VNone => Raise TypeError
  | VStr s =>
      match int_of_str s with
      | Some z => Ok (VInt z)
      | None => Raise ValueError
      end
  | VInt z => Ok (VInt z)
  end.

(** [x in l] on a list of values. *)
Definition py_in (x : value) (l : list value) : bool :=
  bool_decide (x ∈ l).

(** *** [GetDetails.get] (lines 161-229) *)

Definition GetDetails_get (user_id : option (gmap string value))
    (req : request) : M response :=
  match user_id with
  | Some user =>
      let file_id := args_get req "file_id" in
      let params_required := ["file_id"] in
      let params := [ODict user; OVal file_id] in
      if (py_sum (map is_None params) =? length params)%nat then
        ret RUsageTest
      else if negb (py_sum (map (fun x => negb (is_None x)) params)
                    =? length params)%nat then
        ret (RUsage (help_usage req (Some "MissingParameters") 400
                       params_required
                       (list_to_map [("file_id", file_id)])))
      else
        let* uid := lift (subscript user "user_id") in
        let* hdf5_handle := open_handle rd uid file_id None in
        let* h5_data := call EGetDetails (get_details rd hdf5_handle) in
        let* _ := call EClose (close rd hdf5_handle) in
        ret (RDetails (base_url req)
                      (url_root req +:+ "mug/api/adjacency")
                      (chromosomes h5_data) (resolutions h5_data))
  | None =>
      (* line 229: [params_required] is bound only inside the [if] suite *)
      let* params_required :=
        lift (load_local "params_required" (@None (list string))) in
      ret (RUsage (help_usage req (Some "Forbidden") 403 params_required ∅))
  end.

(** *** [GetInteractions.get] (lines 238-448) *)

Definition GetInteractions_get (user_id : option (gmap string value))
    (req : request) : M response :=
  match user_id with
  | Some user =>
      let file_id := args_get req "file_id" in
      let chr_id := args_get req "chr" in
      let start := args_get req "start" in
      let end_ := args_get req "end" in
      let resolution := args_get req "res" in
      let limit_chr := args_get req "limit_chr" in
      let limit_start := args_get req "limit_start" in
      let limit_end := args_get req "limit_end" in
      let no_links := args_get req "no_links" in
      let params_required :=
        ["user_id"; "file_id"; "chr_id"; "start"; "end"; "res";
         "limit_chr"; "limit_start"; "limit_end"] in
      let params :=
        [ODict user; OVal file_id; OVal chr_id; OVal start; OVal end_;
         OVal resolution] in
      (* Display the parameters available *)
      if (py_sum (map is_None params) =? length params)%nat then
        ret (RUsage (help_usage req None 200 params_required ∅))
      (* ERROR - one of the required parameters is NoneType *)
      else if negb (py_sum (map (fun x => negb (is_None x)) params)
                    =? length params)%nat then
        ret (RUsage (help_usage req (Some "MissingParameters") 400
               params_required
               (list_to_map
                  [("file_id", file_id);
                   ("chr", chr_id); ("start", start); ("end", end_);
                   ("res", resolution); ("limit_chr", limit_chr);
                   ("limit_start", limit_start);
                   ("limit_end", limit_end)])))
      else
        (* ERROR - one of the parameters is not of integer type *)
        let incorrect start end_ resolution :=
          ret (RUsage (help_usage req (Some "IncorrectParameterType") 400
                 params_required
                 (list_to_map
                    [("file_id", file_id);
                     ("chr", chr_id); ("start", start); ("end", end_);
                     ("res", resolution); ("limit_chr", limit_chr)]))) in
        match py_int start with
        | Raise ValueError => incorrect start end_ resolution
        | Raise e => raise e
        | Ok start =>
        match py_int end_ with
        | Raise ValueError => incorrect start end_ resolution
        | Raise e => raise e
        | Ok end_ =>
        match py_int resolution with
        | Raise ValueError => incorrect start end_ resolution
        | Raise e => raise e
        | Ok resolution =>
          let* uid := lift (subscript user "user_id") in
          let* hdf5_handle :=
            open_handle rd uid file_id (Some resolution) in
          let* details := call EGetDetails (get_details rd hdf5_handle) in
          (* ERROR - the requested resolution is not available *)
          if negb (py_in resolution (resolutions details)) then
            ret (RUsage (help_usage req (Some "Resolution Not Available")
                   400 params_required
                   (list_to_map
                      [("file_id", file_id);
                       ("chr", chr_id); ("start", start); ("end", end_);
                       ("res", resolution); ("limit_chr", limit_chr);
                       ("limit_start", limit_start);
                       ("limit_end", limit_end)])))
          else
            (* lines 418-441, for the current [limit_start], [limit_end] *)
            let query limit_start limit_end :=
              let value_url :=
                url_root req +:+ "mug/api/adjacency/getValue" in
              let* h5_data :=
                call (EGetRange chr_id start end_
                        limit_chr limit_start limit_end)
                     (get_range rd hdf5_handle chr_id start end_
                        limit_chr limit_start limit_end
                        value_url no_links) in
              let* _ := call EClose (close rd hdf5_handle) in
              ret (RRange
                     {| env_self := url req;
                        env_parent := url_root req +:+ "mug/api/adjacency";
                        env_resolution := resolution;
                        env_chr := chr_id;
                        env_start := start;
                        env_end := end_;
                        env_limit_chr := limit_chr;
                        env_limit_start := limit_start;
                        env_limit_end := limit_end;
                        interaction_count :=
                          Z.of_nat (length (results h5_data));
                        values := results h5_data;
                        env_log := log h5_data |}) in
            let limits limit_start limit_end :=
              list_to_map
                [("file_id", file_id);
                 ("chr", chr_id); ("start", start); ("end", end_);
                 ("res", resolution); ("limit_chr", limit_chr);
                 ("limit_start", limit_start);
                 ("limit_end", limit_end)] in
            if negb (is_None (OVal limit_start))
               || negb (is_None (OVal limit_end)) then
              if is_None (OVal limit_chr) then
                ret (RUsage (help_usage req (Some "MissingParameters") 400
                       params_required (limits limit_start limit_end)))
              else
                (* ERROR - one of the parameters is not of integer type *)
                let incorrect limit_start limit_end :=
                  ret (RUsage (help_usage req
                         (Some "IncorrectParameterType") 400
                         params_required
                         (limits limit_start limit_end))) in
                match py_int limit_start with
                | Raise ValueError => incorrect limit_start limit_end
                | Raise e => raise e
                | Ok limit_start =>
                match py_int limit_end with
                | Raise ValueError => incorrect limit_start limit_end
                | Raise e => raise e
                | Ok limit_end => query limit_start limit_end
                end end
            else query limit_start limit_end
        end end end
  | None =>
      ret (RUsage (help_usage req (Some "Forbidden") 403
             ["file_id"; "chr_id"; "start"; "end"; "res";
              "limit_chr"; "limit_start"; "limit_end"] ∅))
  end.

(** *** [GetValue.get] (lines 456-562) *)

Definition GetValue_get (user_id : option (gmap string value))
    (req : request) : M response :=
  match user_id with
  | Some user =>
      let file_id := args_get req "file_id" in
      let resolution := args_get req "res" in
      let pos_x := args_get req "pos_x" in
      let pos_y := args_get req "pos_y" in
      let params_required :=
        ["user_id"; "file_id"; "res"; "pos_x"; "pos_y"] in
      let params :=
        [ODict user; OVal file_id; OVal resolution; OVal pos_x;
         OVal pos_y] in
      let provided resolution pos_x pos_y :=
        list_to_map
          [("file_id", file_id);
           ("resolution", resolution); ("pos_x", pos_x);
           ("pos_y", pos_y)] in
      (* Display the parameters available *)
      if (py_sum (map is_None params) =? length params)%nat then
        ret (RUsage (help_usage req None 200 params_required ∅))
      (* ERROR - one of the required parameters is NoneType *)
      else if negb (py_sum (map (fun x => negb (is_None x)) params)
                    =? length params)%nat then
        ret (RUsage (help_usage req (Some "MissingParameters") 400
               params_required (provided resolution pos_x pos_y)))
      else
        (* ERROR - one of the parameters is not of integer type *)
        let incorrect resolution pos_x pos_y :=
          ret (RUsage (help_usage req (Some "IncorrectParameterType") 400
                 params_required (provided resolution pos_x pos_y))) in
        match py_int pos_x with
        | Raise ValueError => incorrect resolution pos_x pos_y
        | Raise e => raise e
        | Ok pos_x =>
        match py_int pos_y with
        | Raise ValueError => incorrect resolution pos_x pos_y
        | Raise e => raise e
        | Ok pos_y =>
        match py_int resolution with
        | Raise ValueError => incorrect resolution pos_x pos_y
        | Raise e => raise e
        | Ok resolution =>
          let* uid := lift (subscript user "user_id") in
          let* h5_handle :=
            open_handle rd uid file_id (Some resolution) in
          let* value :=
            call (EGetValue pos_x pos_y)
                 (get_value rd h5_handle pos_x pos_y) in
          let* chr_a_id :=
            call (EGetChromosome pos_x)
                 (get_chromosome_from_array_index rd h5_handle pos_x) in
          let* chr_b_id :=
            call (EGetChromosome pos_y)
                 (get_chromosome_from_array_index rd h5_handle pos_y) in
          let* _ := call EClose (close rd h5_handle) in
          let* value := lift (py_int value) in
          ret (RValue
                 {| val_self :=
                      (((((((url_root req
                        +:+ "mug/api/adjacency/getValue?file_id=")
                        +:+ py_str file_id) +:+ "&res=")
                        +:+ py_str resolution) +:+ "&pos_x=")
                        +:+ py_str pos_x) +:+ "&pos_y=")
                        +:+ py_str pos_y;
                    val_chrA := chr_a_id;
                    val_chrB := chr_b_id;
                    val_resolution := resolution;
                    val_pos_x := pos_x;
                    val_pos_y := pos_y;
                    val_value := value |})
        end end end
  | None =>
      ret (RUsage (help_usage req (Some "Forbidden") 403
             ["file_id"; "res"; "pos_x"; "pos_y"] ∅))
  end.

End Handlers.

(** ** A concrete parser and reader for the worked examples *)

Definition digit_of (c : ascii) : option Z :=
  let n := Z.of_nat (nat_of_ascii c) in
  if (48 <=? n) && (n <=? 57) then Some (n - 48) else None.

Fixpoint digits (s : string) (acc : Z) : option Z :=
  match s with
  | EmptyString => Some acc
  | String c s' =>
      match digit_of c with
      | Some d => digits s' (10 * acc + d)
      | None => None
      end
  end.

(** The fragment of [int] on strings used in the examples: an optional
    sign followed by one or more ASCII digits. *)
Definition int_of_decimal (s : string) : option Z :=
  match s with
  | EmptyString => None
  | String "-" (String _ _ as s') => Z.opp <$> digits s' 0
  | String "+" (String _ _ as s') => digits s' 0
  | _ => digits s 0
  end.

Definition sample_details : details :=
  {| chromosomes := [(VStr "chr1", VInt 1000); (VStr "chr2", VInt 800)];
     resolutions := [VInt 10; VInt 100] |}.

Definition sample_records : list interaction :=
  [ {| chrA := VInt 1; startA := VInt 100;
       chrB := VInt 2; startB := VInt 200; ivalue := VInt 5 |};
    {| chrA := VInt 1; startA := VInt 150;
       chrB := VInt 3; startB := VInt 300; ivalue := VInt 7 |} ].

(** A reader that never fails and serves one dataset with the
    resolutions 10 and 100. *)
Definition sample_reader : reader :=
  {| handle := unit;
     adjacency := fun _ _ _ => Ok tt;
     get_details := fun _ => Ok sample_details;
     get_range := fun _ _ _ _ _ _ _ _ _ =>
       Ok {| results := sample_records; log := [] |};
     get_value := fun _ _ _ => Ok (VInt 3);
     get_chromosome_from_array_index := fun _ pos =>
       match pos with
       | VInt z => Ok (VStr (if z <=? 15 then "chr1" else "chr2"))
       | _ => Raise TypeError
       end;
     close := fun _ => Ok tt |}.

Definition sample_user : gmap string value :=
  {[ "user_id" := VStr "test_user" ]}.

Definition sample_request (path ep : string) (a : list (string * string))
  : request :=
  {| base_url := "http://localhost:5001/mug/api/adjacency/" +:+ path;
     url_root := "http://localhost:5001/";
     url := "http://localhost:5001/mug/api/adjacency/" +:+ path;
     endpoint := ep;
     args := list_to_map a |}.

(** Valid primary parameters at the supported resolution 10, with the
    given members of the limiting triple. *)
Definition limited_request (limits : list (string * string)) : request :=
  sample_request "getInteractions" "values"
    ([("file_id", "test_file"); ("chr", "1"); ("start", "100");
      ("end", "200"); ("res", "10")] ++ limits).

Definition supported_request : request := limited_request [].

Definition sample_envelope : range_envelope :=
  {| env_self := url supported_request;
     env_parent := url_root supported_request +:+ "mug/api/adjacency";
     env_resolution := VInt 10;
     env_chr := VStr "1";
     env_start := VInt 100;
     env_end := VInt 200;
     env_limit_chr := VNone;
     env_limit_start := VNone;
     env_limit_end := VNone;
     interaction_count := 2;
     values := sample_records;
     env_log := [] |}.

(** ** The tabular rendering, as the specification words it *)

(** One record as five tab-separated fields and a newline. *)
Definition tsv_line (v : interaction) : string :=
  py_str (chrA v) +:+ tab +:+ py_str (startA v) +:+ tab +:+
  py_str (chrB v) +:+ tab +:+ py_str (startB v) +:+ tab +:+
  py_str (ivalue v) +:+ newline.

Definition tsv_lines (vs : list interaction) : string :=
  foldr (fun v rest => tsv_line v +:+ rest) "" vs.

(** ** Predicates of the statements *)

(** A query parameter the caller did not send, resp. sent. *)
Definition absent (req : request) (k : string) : Prop := args req !! k = None.

Definition present (req : request) (k : string) : Prop :=
  is_Some (args req !! k).

(** The query parameters collected in [params] by the range and the point
    handler (after [user_id]). *)
Definition range_primary : list string :=
  ["file_id"; "chr"; "start"; "end"; "res"].

Definition point_primary : list string :=
  ["file_id"; "res"; "pos_x"; "pos_y"].

(** The five primary parameters are present and the three numeric ones
    parse: [file_id = f], [chr = c], [start], [end], [res] read [zs], [ze],
    [zr]. *)
Definition range_primary_valid (int_of_str : string -> option Z)
    (req : request) (f c : string) (zs ze zr : Z) : Prop :=
  args req !! "file_id" = Some f
  /\ args req !! "chr" = Some c
  /\ (exists s, args req !! "start" = Some s /\ int_of_str s = Some zs)
  /\ (exists s, args req !! "end" = Some s /\ int_of_str s = Some ze)
  /\ (exists s, args req !! "res" = Some s /\ int_of_str s = Some zr).

(** [params_required] of the range handler (lines 340-342). *)
Definition range_params_required : list string :=
  ["user_id"; "file_id"; "chr_id"; "start"; "end"; "res";
   "limit_chr"; "limit_start"; "limit_end"].

(** The parameters of the range operation that the table of [help_usage]
    knows. *)
Definition range_described : list string :=
  ["file_id"; "start"; "end"; "res"; "limit_chr"; "limit_start"; "limit_end"].

(** The names echoed by the [MissingParameters] rejection of the range
    handler (lines 354-357). *)
Definition range_echoed : list string :=
  ["file_id"; "chr"; "start"; "end"; "res";
   "limit_chr"; "limit_start"; "limit_end"].

(** The values received for the given names, [None] for a name that was
    not sent. *)
Definition raw_echo (req : request) (names : list string)
  : gmap string value :=
  list_to_map (map (fun k => (k, args_get req k)) names).

(** The dictionary echoed by the rejections that follow the coercion of the
    primary parameters (lines 385-388, 397-400, 411-414). *)
Definition range_echo (req : request) (f c : string) (zs ze zr : Z)
    (limit_start limit_end : value) : gmap string value :=
  list_to_map
    [("file_id", VStr f); ("chr", VStr c); ("start", VInt zs);
     ("end", VInt ze); ("res", VInt zr);
     ("limit_chr", args_get req "limit_chr");
     ("limit_start", limit_start); ("limit_end", limit_end)].

(** The request as the caller sent it: the supplied names with their
    string values. *)
Definition raw_input (req : request) : gmap string value :=
  VStr <$> args req.

(** The value a payload echoes under a name of [provided_parameters]. *)
Definition echoed (m : message) (k : string) : option value :=
  match provided_parameters m with
  | Some d => d !! k
  | None => None
  end.

(** Handles opened and closed along a trace. *)
Definition is_open (e : event) : bool :=
  match e with EOpen _ _ _ => true | _ => false end.

Definition is_close (e : event) : bool :=
  match e with EClose => true | _ => false end.

Definition opened (t : list event) : nat := length (List.filter is_open t).
Definition closed (t : list event) : nat := length (List.filter is_close t).

(** ** Sample requests *)

(** Every primary parameter is valid and the resolution 25 is not one of
    the dataset's. *)
Definition unsupported_resolution_request : request :=
  sample_request "getInteractions" "values"
    [("file_id", "test_file"); ("chr", "1"); ("start", "100");
     ("end", "200"); ("res", "25")].

Definition file_only_request : request :=
  sample_request "getInteractions" "values" [("file_id", "test_file")].

Definition res_only_request : request :=
  sample_request "getValue" "value" [("res", "10")].

(** [start] parses (to 7), [end] does not. *)
Definition bad_end_request : request :=
  sample_request "getInteractions" "values"
    [("file_id", "test_file"); ("chr", "1"); ("start", "007");
     ("end", "x"); ("res", "10")].

Definition bad_pos_request : request :=
  sample_request "getValue" "value"
    [("file_id", "test_file"); ("res", "10"); ("pos_x", "a");
     ("pos_y", "20")].

Definition bad_limit_request : request :=
  limited_request
    [("limit_chr", "2"); ("limit_start", "150"); ("limit_end", "y")].

(** The point lookup of the specification's scenario. *)
Definition point_request : request :=
  sample_request "getValue" "value"
    [("file_id", "test_file"); ("res", "1000"); ("pos_x", "10");
     ("pos_y", "20")].

(** ** The shape of the tabular body *)

Definition tab_char : ascii := "009"%char.
Definition newline_char : ascii := "010"%char.

(** Occurrences of a character in a string. *)
Fixpoint count_char (c : ascii) (s : string) : nat :=
  match s with
  | EmptyString => 0%nat
  | String x s' => ((if Ascii.eqb x c then 1 else 0) + count_char c s')%nat
  end.

(** A printed field that holds neither separator of the tabular format. *)
Definition clean (s : string) : Prop :=
  count_char tab_char s = 0%nat /\ count_char newline_char s = 0%nat.

(** The five fields of a record as [output_tsv] prints them. *)
Definition fields (v : interaction) : list string :=
  [py_str (chrA v); py_str (startA v); py_str (chrB v); py_str (startB v);
   py_str (ivalue v)].

(** Every string field of the record is free of separators; integer
    and [None] fields always print without one. *)
Definition field_clean (x : value) : Prop :=
  match x with VStr s => clean s | _ => True end.

Definition record_clean (v : interaction) : Prop :=
  Forall field_clean [chrA v; startA v; chrB v; startB v; ivalue v].

(** The body [output_tsv] builds from a list of records (lines 42-46). *)
Definition tsv_body (vs : list interaction) : string :=
  fold_left tsv_step vs "".

(** The sample records with their fields held as strings, in an envelope
    that differs from [sample_envelope] in its other entries too. *)
Definition string_records : list interaction :=
  [ {| chrA := VStr "1"; startA := VStr "100";
       chrB := VStr "2"; startB := VStr "200"; ivalue := VStr "5" |};
    {| chrA := VStr "1"; startA := VStr "150";
       chrB := VStr "3"; startB := VStr "300"; ivalue := VStr "7" |} ].

Definition string_envelope : range_envelope :=
  {| env_self := "";
     env_parent := "";
     env_resolution := VInt 100;
     env_chr := VStr "1";
     env_start := VInt 0;
     env_end := VInt 1000;
     env_limit_chr := VStr "2";
     env_limit_start := VInt 0;
     env_limit_end := VInt 500;
     interaction_count := 2;
     values := string_records;
     env_log := ["truncated"] |}.

(** ** Further sample requests and readers *)

Definition details_request : request :=
  sample_request "details" "meta_data" [("file_id", "test_file")].

Definition full_limit_request : request :=
  limited_request
    [("limit_chr", "2"); ("limit_start", "150"); ("limit_end", "180")].

Definition one_bound_request : request :=
  limited_request [("limit_chr", "2"); ("limit_start", "150")].

(** A reader whose range lookup and point lookup fail. *)
Definition failing_reader : reader :=
  {| handle := unit;
     adjacency := fun _ _ _ => Ok tt;
     get_details := fun _ => Ok sample_details;
     get_range := fun _ _ _ _ _ _ _ _ _ =>
       Raise (ReaderError "range lookup failed");
     get_value := fun _ _ _ => Raise (ReaderError "point lookup failed");
     get_chromosome_from_array_index := fun _ _ => Ok (VStr "chr1");
     close := fun _ => Ok tt |}.

(** The error strings a rejection of an authenticated caller can carry. *)
Definition rejection_errors : list string :=
  ["MissingParameters"; "IncorrectParameterType"; "Resolution Not Available"].

(** The two kinds of rejection payload: the one for an unauthenticated
    caller and the ones for an authenticated caller. *)
Definition rejection_of (user_id : option (gmap string value)) (m : message)
  : Prop :=
  match user_id with
  | None =>
      status_code m = 403 /\ error m = Some "Forbidden"
      /\ provided_parameters m = None
  | Some _ =>
      status_code m = 400
      /\ (exists err, error m = Some err /\ err ∈ rejection_errors)
      /\ provided_parameters m <> None
  end.

Definition empty_request : request :=
  sample_request "details" "meta_data" [].

(** A reader that opens files it cannot read the details of. *)
Definition unreadable_reader : reader :=
  {| handle := unit;
     adjacency := fun _ _ _ => Ok tt;
     get_details := fun _ => Raise (ReaderError "details unreadable");
     get_range := fun _ _ _ _ _ _ _ _ _ =>
       Ok {| results := []; log := [] |};
     get_value := fun _ _ _ => Ok (VInt 0);
     get_chromosome_from_array_index := fun _ _ => Ok (VStr "chr1");
     close := fun _ => Ok tt |}.

(** ** Strings *)

Lemma append_assoc' (a b c : string) : (a +:+ b) +:+ c = a +:+ (b +:+ c).
Proof.
  induction a as [|x a IH]; [reflexivity|].
  change (String x ((a +:+ b) +:+ c) = String x (a +:+ (b +:+ c))).
  now rewrite IH.
Qed.

Lemma append_empty_r (a : string) : a +:+ "" = a.
Proof.
  induction a as [|x a IH]; [reflexivity|].
  change (String x (a +:+ "") = String x a). now rewrite IH.
Qed.

Lemma tsv_step_line (outstr : string) (v : interaction) :
  tsv_step outstr v = outstr +:+ tsv_line v.
Proof.
  unfold tsv_step, tsv_line. cbv zeta. now rewrite !append_assoc'.
Qed.

Lemma tsv_fold_lines (vs : list interaction) (outstr : string) :
  fold_left tsv_step vs outstr = outstr +:+ tsv_lines vs.
Proof.
  revert outstr. induction vs as [|v vs IH]; intros outstr; simpl.
  - now rewrite append_empty_r.
  - rewrite IH, tsv_step_line. apply append_assoc'.
Qed.

(** C9. On the range endpoint, [output_tsv] renders a range envelope as
    the concatenation, in the envelope's record order, of one line per
    interaction record, the line being the five fields (chromosome A,
    start A, chromosome B, start B, value) separated by tabs and ended by a
    newline; nothing else of the envelope (links, echoed parameters, count,
    log) reaches the body.  The records (1,100,2,200,5), (1,150,3,300,7)
    render as the two lines of the specification. *)
Theorem output_tsv_range_lines :
  (forall (req : request) (e : range_envelope) (code : Z)
          (headers : option (list (string * string))),
      endpoint req = "values" ->
      output_tsv req (RRange e) code headers
      = Ok (Some {| body := tsv_lines (values e);
                    http_code := code;
                    http_headers := default [] headers |}))
  /\ output_tsv supported_request (RRange sample_envelope) 200 None
     = Ok (Some {| body :=
                     "1" +:+ tab +:+ "100" +:+ tab +:+ "2" +:+ tab +:+ "200"
                     +:+ tab +:+ "5" +:+ newline +:+
                     "1" +:+ tab +:+ "150" +:+ tab +:+ "3" +:+ tab +:+ "300"
                     +:+ tab +:+ "7" +:+ newline;
                   http_code := 200;
                   http_headers := [] |}).
Proof.
  split.
  - intros req e code headers Hep. unfold output_tsv.
    destruct (decide (endpoint req = "values")) as [_|Hne]; [|contradiction].
    simpl. now rewrite tsv_fold_lines.
  - vm_compute. reflexivity.
Qed.

(** ** The usage block *)

Lemma used_param_fold_lookup (l : list string)
    (acc : gmap string (list string)) (k : string) :
  fold_left
    (fun acc k =>
       match parameters !! k with
       | Some d => <[k := d]> acc
       | None => acc
       end) l acc !! k
  = if decide (k ∈ l)
    then match parameters !! k with Some d => Some d | None => acc !! k end
    else acc !! k.
Proof.
  revert acc. induction l as [|x l IH]; intros acc; simpl.
  - destruct (decide (k ∈ [])) as [Hin|_]; [inversion Hin | reflexivity].
  - rewrite IH.
    destruct (decide (x = k)) as [->|Hne].
    + destruct (decide (k ∈ k :: l)) as [_|Hn]; [|exfalso; apply Hn; left].
      destruct (parameters !! k) as [d|] eqn:Hk.
      * rewrite lookup_insert_eq. now destruct (decide (k ∈ l)).
      * now destruct (decide (k ∈ l)).
    + assert (Hacc : (match parameters !! x with
                      | Some d => <[x := d]> acc
                      | None => acc
                      end) !! k = acc !! k).
      { destruct (parameters !! x); [now rewrite lookup_insert_ne|reflexivity]. }
      rewrite Hacc.
      destruct (decide (k ∈ l)) as [Hin|Hnin];
        destruct (decide (k ∈ x :: l)) as [Hin'|Hnin']; try reflexivity.
      * exfalso. apply Hnin'. now right.
      * exfalso. apply Hnin. inversion Hin'; subst; [congruence|assumption].
Qed.

Lemma used_param_lookup (l : list string) (k : string) :
  used_param l !! k = if decide (k ∈ l) then parameters !! k else None.
Proof.
  unfold used_param. rewrite used_param_fold_lookup, lookup_empty.
  destruct (decide (k ∈ l)); [now destruct (parameters !! k) | reflexivity].
Qed.

Lemma used_param_range_required :
  used_param ["user_id"; "file_id"; "chr_id"; "start"; "end"; "res";
              "limit_chr"; "limit_start"; "limit_end"]
  = used_param range_described.
Proof. vm_compute. reflexivity. Qed.

Lemma used_param_range_forbidden :
  used_param ["file_id"; "chr_id"; "start"; "end"; "res";
              "limit_chr"; "limit_start"; "limit_end"]
  = used_param range_described.
Proof. vm_compute. reflexivity. Qed.

Lemma help_usage_parameters req err code required provided :
  usage_parameters (usage (help_usage req err code required provided))
  = used_param required.
Proof. reflexivity. Qed.

(** ** Walking the paths of a handler *)

Ltac unfold_monad :=
  unfold bind, ret, raise, lift, call, open_handle, subscript, load_local in *.

(** Split on every [match] and [if] of the hypothesis, innermost scrutinee
    first, until each path of the handler is a separate equation. *)
Ltac split_paths H :=
  repeat (match type of H with
          | context [match ?x with _ => _ end] =>
              lazymatch x with
              | context [match _ with _ => _ end] => fail
              | _ => idtac
              end;
              let E := fresh "E" in destruct x eqn:E
          end; cbv beta iota in H);
  try discriminate H.

Lemma GetInteractions_usage_parameters int_of_str rd user_id req t m t' :
  GetInteractions_get int_of_str rd user_id req t = (Ok (RUsage m), t') ->
  usage_parameters (usage m) = used_param range_described.
Proof.
  intros H. unfold GetInteractions_get in H. unfold_monad.
  split_paths H; inversion H; subst; cbn [usage usage_parameters help_usage];
    first [apply used_param_range_required | apply used_param_range_forbidden].
Qed.

(** C10. The parameters section of a [help_usage] payload holds exactly
    the names of the caller's required-parameter list that are keys of the
    static table, each with its table entry; names outside the table are
    dropped.  The range operation passes ['user_id'] and ['chr_id'], which
    the table does not know, and never ['chrom']: every usage or error
    payload of the range operation describes the seven parameters of
    [range_described] and has no entry for the chromosome. *)
Theorem help_usage_describes_table_names :
  (forall req err code (required : list string) provided (k : string),
      usage_parameters (usage (help_usage req err code required provided)) !! k
      = if decide (k ∈ required) then parameters !! k else None)
  /\ (forall int_of_str rd user_id req t m t',
         GetInteractions_get int_of_str rd user_id req t
         = (Ok (RUsage m), t') ->
         usage_parameters (usage m) = used_param range_described
         /\ usage_parameters (usage m) !! "chrom" = None
         /\ usage_parameters (usage m) !! "chr_id" = None
         /\ usage_parameters (usage m) !! "user_id" = None).
Proof.
  split.
  - intros. rewrite help_usage_parameters. apply used_param_lookup.
  - intros int_of_str rd user_id req t m t' H.
    apply GetInteractions_usage_parameters in H. rewrite H.
    repeat split; vm_compute; reflexivity.
Qed.

(** C8. Whenever the range handler answers with a range envelope, its
    [interaction_count] is the length of its [values]. *)
Theorem interaction_count_is_length int_of_str rd user_id req t e t' :
  GetInteractions_get int_of_str rd user_id req t = (Ok (RRange e), t') ->
  interaction_count e = Z.of_nat (length (values e)).
Proof.
  intros H. unfold GetInteractions_get in H. unfold_monad.
  split_paths H; inversion H; subst; reflexivity.
Qed.

(** ** Unauthenticated callers *)

Lemma GetInteractions_forbidden int_of_str rd req t :
  GetInteractions_get int_of_str rd None req t
  = (Ok (RUsage (help_usage req (Some "Forbidden") 403
                   ["file_id"; "chr_id"; "start"; "end"; "res";
                    "limit_chr"; "limit_start"; "limit_end"] ∅)), t).
Proof. reflexivity. Qed.

Lemma GetValue_forbidden int_of_str rd req t :
  GetValue_get int_of_str rd None req t
  = (Ok (RUsage (help_usage req (Some "Forbidden") 403
                   ["file_id"; "res"; "pos_x"; "pos_y"] ∅)), t).
Proof. reflexivity. Qed.

(** C5. The range and point handlers answer an unauthenticated caller
    with the 403 [Forbidden] payload, whatever the request holds, and
    without touching the reader.  The details handler does not: its
    [Forbidden] line reads [params_required], which only the authenticated
    branch binds, so the call raises [UnboundLocalError] and no payload is
    produced. *)
Theorem GetDetails_unauthenticated_raises :
  forall int_of_str rd req t,
    GetDetails_get rd None req t
    = (Raise (UnboundLocalError "params_required"), t)
    /\ (exists m,
           GetInteractions_get int_of_str rd None req t = (Ok (RUsage m), t)
           /\ status_code m = 403 /\ error m = Some "Forbidden"
           /\ provided_parameters m = None)
    /\ (exists m,
           GetValue_get int_of_str rd None req t = (Ok (RUsage m), t)
           /\ status_code m = 403 /\ error m = Some "Forbidden"
           /\ provided_parameters m = None
           /\ usage_parameters (usage m)
              = used_param ["file_id"; "res"; "pos_x"; "pos_y"]).
Proof.
  intros int_of_str rd req t. split; [reflexivity|]. split.
  - eexists. split; [apply GetInteractions_forbidden|].
    repeat split; reflexivity.
  - eexists. split; [apply GetValue_forbidden|].
    repeat split; reflexivity.
Qed.

(** ** Authenticated callers that send no parameter *)

Lemma args_get_absent req k : absent req k -> args_get req k = VNone.
Proof. unfold absent, args_get. now intros ->. Qed.

Lemma args_get_present req k s : args req !! k = Some s -> args_get req k = VStr s.
Proof. unfold args_get. now intros ->. Qed.

(** C2. For an authenticated caller the discovery branch of each handler
    is dead: [params] starts with [user_id], which is not [None] on that
    branch, so "all of [params] are [None]" never holds.  A request without
    any of the operation's parameters falls through to the next test and is
    answered with the 400 [MissingParameters] payload. *)
Theorem authenticated_without_parameters_is_rejected :
  forall int_of_str rd user req t,
    (absent req "file_id" ->
     exists m, GetDetails_get rd (Some user) req t = (Ok (RUsage m), t)
               /\ status_code m = 400 /\ error m = Some "MissingParameters")
    /\ (Forall (absent req) range_primary ->
        exists m, GetInteractions_get int_of_str rd (Some user) req t
                  = (Ok (RUsage m), t)
                  /\ status_code m = 400 /\ error m = Some "MissingParameters")
    /\ (Forall (absent req) point_primary ->
        exists m, GetValue_get int_of_str rd (Some user) req t
                  = (Ok (RUsage m), t)
                  /\ status_code m = 400 /\ error m = Some "MissingParameters").
Proof.
  intros int_of_str rd user req t. repeat split.
  - intros Hf. unfold GetDetails_get. rewrite (args_get_absent _ _ Hf).
    eexists. split; [reflexivity|]. split; reflexivity.
  - intros Hall. unfold range_primary in Hall.
    repeat match goal with
           | H : Forall _ (_ :: _) |- _ => inversion H; subst; clear H
           end.
    unfold GetInteractions_get.
    repeat match goal with
           | H : absent _ _ |- _ => rewrite (args_get_absent _ _ H); clear H
           end.
    eexists. split; [reflexivity|]. split; reflexivity.
  - intros Hall. unfold point_primary in Hall.
    repeat match goal with
           | H : Forall _ (_ :: _) |- _ => inversion H; subst; clear H
           end.
    unfold GetValue_get.
    repeat match goal with
           | H : absent _ _ |- _ => rewrite (args_get_absent _ _ H); clear H
           end.
    eexists. split; [reflexivity|]. split; reflexivity.
Qed.

Lemma authenticated_without_parameters_witness :
  let req := sample_request "getInteractions" "values" [] in
  absent req "file_id"
  /\ Forall (absent req) range_primary
  /\ Forall (absent req) point_primary
  /\ (exists m, GetDetails_get sample_reader (Some sample_user) req []
                = (Ok (RUsage m), [])
                /\ status_code m = 400 /\ error m = Some "MissingParameters")
  /\ (exists m, GetInteractions_get int_of_decimal sample_reader
                  (Some sample_user) req []
                = (Ok (RUsage m), [])
                /\ status_code m = 400 /\ error m = Some "MissingParameters")
  /\ (exists m, GetValue_get int_of_decimal sample_reader
                  (Some sample_user) req []
                = (Ok (RUsage m), [])
                /\ status_code m = 400 /\ error m = Some "MissingParameters").
Proof.
  intros req.
  assert (Hd : absent req "file_id") by reflexivity.
  assert (Hr : Forall (absent req) range_primary)
    by (repeat constructor).
  assert (Hp : Forall (absent req) point_primary)
    by (repeat constructor).
  destruct (authenticated_without_parameters_is_rejected
              int_of_decimal sample_reader sample_user req [])
    as (Td & Tr & Tp).
  repeat split; [exact Hr | exact Hp | exact (Td Hd) | exact (Tr Hr) | exact (Tp Hp)].
Defined.

(** ** The life of the dataset handle *)

(** A rejection of the range handler is produced either before the reader
    is touched or right after [get_details], with the handle still open. *)
Lemma GetInteractions_rejection_trace int_of_str rd user_id req m t' :
  GetInteractions_get int_of_str rd user_id req [] = (Ok (RUsage m), t') ->
  t' = [] \/ exists u f r, t' = [EOpen u f r; EGetDetails].
Proof.
  intros H. unfold GetInteractions_get in H. unfold_monad.
  split_paths H; inversion H; subst;
    first [left; reflexivity | right; do 3 eexists; reflexivity].
Qed.

(** On their success paths the three handlers open one handle and close it
    once. *)
Lemma GetInteractions_success_trace int_of_str rd user_id req e t' :
  GetInteractions_get int_of_str rd user_id req [] = (Ok (RRange e), t') ->
  opened t' = 1%nat /\ closed t' = 1%nat.
Proof.
  intros H. unfold GetInteractions_get in H. unfold_monad.
  split_paths H; inversion H; subst; split; reflexivity.
Qed.

Lemma GetValue_success_trace int_of_str rd user_id req e t' :
  GetValue_get int_of_str rd user_id req [] = (Ok (RValue e), t') ->
  opened t' = 1%nat /\ closed t' = 1%nat.
Proof.
  intros H. unfold GetValue_get in H. unfold_monad.
  split_paths H; inversion H; subst; split; reflexivity.
Qed.

Lemma GetDetails_success_trace rd user_id req s p c r t' :
  GetDetails_get rd user_id req [] = (Ok (RDetails s p c r), t') ->
  opened t' = 1%nat /\ closed t' = 1%nat.
Proof.
  intros H. unfold GetDetails_get in H. unfold_monad.
  split_paths H; inversion H; subst; split; reflexivity.
Qed.

(** C1. The range handler does not release the handle on its rejection
    paths: whenever it answers with a rejection payload after it opened
    the handle (resolution not available, limiting region without
    [limit_chr], limiting bounds that are not integers), the trace of the
    request is the opening and [get_details], with no [close]. *)
Theorem GetInteractions_rejection_leaves_handle_open
    int_of_str rd user_id req m t' :
  GetInteractions_get int_of_str rd user_id req [] = (Ok (RUsage m), t') ->
  opened t' = 1%nat ->
  closed t' = 0%nat /\ exists u f r, t' = [EOpen u f r; EGetDetails].
Proof.
  intros H Hopen.
  destruct (GetInteractions_rejection_trace _ _ _ _ _ _ H)
    as [-> | (u & f & r & ->)].
  - discriminate Hopen.
  - split; [reflexivity | eauto].
Qed.

Lemma GetInteractions_rejection_leaves_handle_open_witness :
  exists m t',
    GetInteractions_get int_of_decimal sample_reader (Some sample_user)
      unsupported_resolution_request [] = (Ok (RUsage m), t')
    /\ error m = Some "Resolution Not Available"
    /\ opened t' = 1%nat
    /\ closed t' = 0%nat
    /\ t' = [EOpen (VStr "test_user") (VStr "test_file") (Some (VInt 25));
            EGetDetails].
Proof.
  eexists. eexists.
  assert (Hrun : GetInteractions_get int_of_decimal sample_reader
                   (Some sample_user) unsupported_resolution_request []
                 = (Ok (RUsage
                      (help_usage unsupported_resolution_request
                         (Some "Resolution Not Available") 400
                         ["user_id"; "file_id"; "chr_id"; "start"; "end";
                          "res"; "limit_chr"; "limit_start"; "limit_end"]
                         (list_to_map
                            [("file_id", VStr "test_file");
                             ("chr", VStr "1"); ("start", VInt 100);
                             ("end", VInt 200); ("res", VInt 25);
                             ("limit_chr", VNone); ("limit_start", VNone);
                             ("limit_end", VNone)]))),
                    [EOpen (VStr "test_user") (VStr "test_file")
                       (Some (VInt 25)); EGetDetails]))
    by (vm_compute; reflexivity).
  split; [exact Hrun|].
  split; [reflexivity|].
  split; [reflexivity|].
  split; [|reflexivity].
  exact (proj1 (GetInteractions_rejection_leaves_handle_open
                  _ _ _ _ _ _ Hrun eq_refl)).
Defined.

(** ** Range requests whose primary parameters are valid *)

Lemma py_int_args_get int_of_str req k v :
  py_int int_of_str (args_get req k) = Ok v ->
  exists s z, args req !! k = Some s /\ int_of_str s = Some z /\ v = VInt z.
Proof.
  unfold args_get, py_int. destruct (args req !! k) as [s|]; [|discriminate].
  destruct (int_of_str s) as [z|] eqn:Hz; [|discriminate].
  intros [= <-]. eauto.
Qed.

Lemma args_get_not_None req k :
  is_None (OVal (args_get req k)) = false -> exists s, args req !! k = Some s.
Proof.
  unfold args_get. destruct (args req !! k) as [s|]; [eauto | discriminate].
Qed.

(** Run a handler on a request whose parameters are known. *)
Ltac run_handler :=
  unfold args_get;
  repeat match goal with
         | H : args _ !! _ = _ |- _ => rewrite H
         | H : absent _ _ |- _ => rewrite H
         end;
  cbn [py_sum map fold_left is_None negb length Nat.eqb py_int];
  repeat match goal with
         | H : _ = Some _ |- _ => rewrite H
         | H : _ = None |- _ => rewrite H
         end;
  cbv beta iota zeta.

Lemma GetInteractions_resolution_rejected
    int_of_str rd user req t uid f c zs ze zr h d :
  user !! "user_id" = Some uid ->
  range_primary_valid int_of_str req f c zs ze zr ->
  adjacency rd uid (VStr f) (Some (VInt zr)) = Ok h ->
  get_details rd h = Ok d ->
  VInt zr ∉ resolutions d ->
  GetInteractions_get int_of_str rd (Some user) req t
  = (Ok (RUsage (help_usage req (Some "Resolution Not Available") 400
                   range_params_required
                   (range_echo req f c zs ze zr
                      (args_get req "limit_start")
                      (args_get req "limit_end")))),
     t ++ [EOpen uid (VStr f) (Some (VInt zr)); EGetDetails]).
Proof.
  intros Hu (Hf & Hc & (ss & Hs & Hzs) & (se & He & Hze) & (sr & Hr & Hzr))
         Hopen Hdet Hnin.
  unfold GetInteractions_get, range_echo. run_handler. unfold_monad.
  rewrite Hu, Hopen, Hdet. unfold py_in.
  rewrite bool_decide_eq_false_2 by assumption.
  cbn [negb]. now rewrite <- app_assoc.
Qed.

(** The counting tests of the handlers: a sum of booleans reaches the
    length of the list only when every entry is true. *)
Lemma py_sum_fold (l : list bool) (n : nat) :
  fold_left (fun acc (b : bool) => if b then S acc else acc) l n
  = (n + py_sum l)%nat.
Proof.
  unfold py_sum. revert n. induction l as [|b l IH]; intros n; simpl.
  - lia.
  - destruct b; rewrite IH; [rewrite (IH 1%nat)|]; lia.
Qed.

Lemma py_sum_cons (b : bool) (l : list bool) :
  py_sum (b :: l) = ((if b then 1 else 0) + py_sum l)%nat.
Proof. unfold py_sum at 1. simpl. destruct b; apply py_sum_fold. Qed.

Lemma py_sum_le (l : list bool) : (py_sum l <= length l)%nat.
Proof.
  induction l as [|b l IH]; [reflexivity|].
  rewrite py_sum_cons. destruct b; simpl; lia.
Qed.

Lemma py_sum_full (l : list bool) :
  py_sum l = length l -> Forall (fun b => b = true) l.
Proof.
  induction l as [|b l IH]; intros H; [constructor|].
  rewrite py_sum_cons in H. pose proof (py_sum_le l) as Hle.
  destruct b; simpl in H; [|lia].
  constructor; [reflexivity | apply IH; lia].
Qed.

Lemma all_not_None (l : list pyobj) :
  negb (py_sum (map (fun x => negb (is_None x)) l) =? length l)%nat = false ->
  Forall (fun x => is_None x = false) l.
Proof.
  intros H. apply negb_false_iff, Nat.eqb_eq in H.
  rewrite <- (length_map (fun x => negb (is_None x))) in H.
  apply py_sum_full in H. rewrite Forall_map in H.
  eapply Forall_impl; [exact H|]. intros x Hx. simpl in Hx.
  now apply negb_true_iff in Hx.
Qed.

Lemma GetInteractions_resolution_rejection_inv
    int_of_str rd user_id req t m t' :
  GetInteractions_get int_of_str rd user_id req t = (Ok (RUsage m), t') ->
  error m = Some "Resolution Not Available" ->
  exists f c zs ze zr uid,
    range_primary_valid int_of_str req f c zs ze zr
    /\ t' = t ++ [EOpen uid (VStr f) (Some (VInt zr)); EGetDetails].
Proof.
  intros H Herr. unfold GetInteractions_get in H. unfold_monad.
  split_paths H; inversion H; subst; try discriminate Herr.
  clear H Herr.
  match goal with
  | E : negb _ = false |- _ => apply all_not_None in E; rename E into Hall
  end.
  repeat match goal with
         | H : Forall _ (_ :: _) |- _ => inversion H; subst; clear H
         end.
  repeat match goal with
         | E : py_int _ (args_get _ _) = Ok _ |- _ =>
             apply py_int_args_get in E; destruct E as (? & ? & ? & ? & ->)
         | E : is_None (OVal (args_get _ _)) = false |- _ =>
             apply args_get_not_None in E; destruct E as (? & ?)
         end.
  repeat match goal with
         | H : args req !! ?k = Some ?s |- _ =>
             rewrite (args_get_present _ _ _ H) in *
         end.
  repeat match goal with
         | H1 : ?a = Some ?x, H2 : ?a = Some ?y |- _ =>
             assert (y = x) by congruence; subst y; clear H2
         end.
  do 6 eexists. split.
  - unfold range_primary_valid.
    repeat match goal with
           | |- _ /\ _ => split
           | |- exists _, _ => eexists
           end; eassumption.
  - rewrite <- app_assoc. reflexivity.
Qed.

Lemma help_usage_provided req err code required (provided : gmap string value) :
  provided <> ∅ ->
  provided_parameters (help_usage req err code required provided)
  = Some provided.
Proof.
  intros Hne. unfold help_usage. cbn [provided_parameters].
  destruct (decide (provided = ∅)); [contradiction | reflexivity].
Qed.

Lemma range_echo_nonempty req f c zs ze zr ls le :
  range_echo req f c zs ze zr ls le <> ∅.
Proof. unfold range_echo. cbn [list_to_map foldr uncurry]. apply insert_non_empty. Qed.

(** C4 (amended). For an authenticated range request whose primary
    parameters type-check, once the reader has opened the handle at the
    requested resolution and returned the dataset's details, a resolution
    outside the supported list yields the 400 payload whose error reads
    ['Resolution Not Available'], echoing the coerced primary parameters.
    Conversely that payload is only ever produced after all primary
    parameters type-checked, and the handle is already open by then: the
    supported list is read from it. *)
Theorem resolution_checked_on_open_handle :
  (forall int_of_str rd user req t uid f c zs ze zr h d,
      user !! "user_id" = Some uid ->
      range_primary_valid int_of_str req f c zs ze zr ->
      adjacency rd uid (VStr f) (Some (VInt zr)) = Ok h ->
      get_details rd h = Ok d ->
      VInt zr ∉ resolutions d ->
      exists m,
        GetInteractions_get int_of_str rd (Some user) req t
        = (Ok (RUsage m),
           t ++ [EOpen uid (VStr f) (Some (VInt zr)); EGetDetails])
        /\ status_code m = 400
        /\ error m = Some "Resolution Not Available"
        /\ provided_parameters m
           = Some (range_echo req f c zs ze zr
                     (args_get req "limit_start")
                     (args_get req "limit_end")))
  /\ (forall int_of_str rd user_id req t m t',
         GetInteractions_get int_of_str rd user_id req t
         = (Ok (RUsage m), t') ->
         error m = Some "Resolution Not Available" ->
         exists f c zs ze zr uid,
           range_primary_valid int_of_str req f c zs ze zr
           /\ t' = t ++ [EOpen uid (VStr f) (Some (VInt zr)); EGetDetails]).
Proof.
  split.
  - intros int_of_str rd user req t uid f c zs ze zr h d Hu Hv Ho Hd Hn.
    eexists. split.
    + apply (GetInteractions_resolution_rejected
               _ _ _ _ _ _ _ _ _ _ _ _ _ Hu Hv Ho Hd Hn).
    + split; [reflexivity|]. split; [reflexivity|].
      apply help_usage_provided, range_echo_nonempty.
  - apply GetInteractions_resolution_rejection_inv.
Qed.

Lemma unsupported_resolution_request_valid :
  range_primary_valid int_of_decimal unsupported_resolution_request
    "test_file" "1" 100 200 25.
Proof.
  unfold range_primary_valid.
  repeat match goal with
         | |- _ /\ _ => split
         | |- exists _, _ => eexists
         end; reflexivity.
Defined.

Lemma resolution_25_unsupported : VInt 25 ∉ resolutions sample_details.
Proof.
  simpl. intros Hin.
  repeat match goal with
         | H : _ ∈ _ :: _ |- _ => inversion H; subst; clear H
         | H : _ ∈ [] |- _ => inversion H
         end.
Defined.

Lemma resolution_checked_on_open_handle_witness :
  sample_user !! "user_id" = Some (VStr "test_user")
  /\ range_primary_valid int_of_decimal unsupported_resolution_request
       "test_file" "1" 100 200 25
  /\ adjacency sample_reader (VStr "test_user") (VStr "test_file")
       (Some (VInt 25)) = Ok tt
  /\ get_details sample_reader tt = Ok sample_details
  /\ (VInt 25 ∉ resolutions sample_details)
  /\ exists m,
       GetInteractions_get int_of_decimal sample_reader (Some sample_user)
         unsupported_resolution_request []
       = (Ok (RUsage m),
          [EOpen (VStr "test_user") (VStr "test_file") (Some (VInt 25));
           EGetDetails])
       /\ status_code m = 400
       /\ error m = Some "Resolution Not Available"
       /\ provided_parameters m
          = Some (range_echo unsupported_resolution_request
                    "test_file" "1" 100 200 25 VNone VNone)
       /\ exists f c zs ze zr uid,
            range_primary_valid int_of_decimal
              unsupported_resolution_request f c zs ze zr
            /\ [EOpen (VStr "test_user") (VStr "test_file")
                  (Some (VInt 25)); EGetDetails]
               = [] ++ [EOpen uid (VStr f) (Some (VInt zr)); EGetDetails].
Proof.
  split; [reflexivity|].
  split; [exact unsupported_resolution_request_valid|].
  split; [reflexivity|].
  split; [reflexivity|].
  split; [exact resolution_25_unsupported|].
  destruct (proj1 resolution_checked_on_open_handle
              int_of_decimal sample_reader sample_user
              unsupported_resolution_request [] (VStr "test_user")
              "test_file" "1" 100 200 25 tt sample_details
              eq_refl unsupported_resolution_request_valid eq_refl eq_refl
              resolution_25_unsupported)
    as (m & Hrun & Hcode & Herr & Hprov).
  exists m.
  split; [exact Hrun|]. split; [exact Hcode|]. split; [exact Herr|].
  split; [exact Hprov|].
  exact (proj2 resolution_checked_on_open_handle _ _ _ _ _ _ _ Hrun Herr).
Defined.

(** C4, as stated, fails: the primary parameters of
    [unsupported_resolution_request] type-check and its resolution 25 is
    not supported, yet the handle has been opened (at resolution 25) by
    the time the request is rejected. *)
Lemma resolution_rejection_after_open :
  let run := GetInteractions_get int_of_decimal sample_reader
               (Some sample_user) unsupported_resolution_request [] in
  range_primary_valid int_of_decimal unsupported_resolution_request
    "test_file" "1" 100 200 25
  /\ (VInt 25 ∉ resolutions sample_details)
  /\ snd run = [EOpen (VStr "test_user") (VStr "test_file")
                  (Some (VInt 25)); EGetDetails]
  /\ opened (snd run) <> 0%nat.
Proof.
  intros run.
  split; [exact unsupported_resolution_request_valid|].
  split; [exact resolution_25_unsupported|].
  assert (Ht : snd run = [EOpen (VStr "test_user") (VStr "test_file")
                            (Some (VInt 25)); EGetDetails])
    by (vm_compute; reflexivity).
  split; [exact Ht|]. rewrite Ht. discriminate.
Qed.

(** ** The limiting region of a range request *)

Lemma GetInteractions_limit_without_chr
    int_of_str rd user req t uid f c zs ze zr h d :
  user !! "user_id" = Some uid ->
  range_primary_valid int_of_str req f c zs ze zr ->
  adjacency rd uid (VStr f) (Some (VInt zr)) = Ok h ->
  get_details rd h = Ok d ->
  VInt zr ∈ resolutions d ->
  absent req "limit_chr" ->
  is_Some (args req !! "limit_start") \/ is_Some (args req !! "limit_end") ->
  GetInteractions_get int_of_str rd (Some user) req t
  = (Ok (RUsage (help_usage req (Some "MissingParameters") 400
                   range_params_required
                   (range_echo req f c zs ze zr
                      (args_get req "limit_start")
                      (args_get req "limit_end")))),
     t ++ [EOpen uid (VStr f) (Some (VInt zr)); EGetDetails]).
Proof.
  intros Hu (Hf & Hc & (ss & Hs & Hzs) & (se & He & Hze) & (sr & Hr & Hzr))
         Hopen Hdet Hin Hchr Hlim.
  unfold GetInteractions_get, range_echo. run_handler. unfold_monad.
  rewrite Hu, Hopen, Hdet. unfold py_in.
  rewrite bool_decide_eq_true_2 by assumption.
  cbn [negb]. rewrite <- app_assoc.
  destruct Hlim as [[s Hl] | [s Hl]]; rewrite Hl;
    [|destruct (args req !! "limit_start")]; reflexivity.
Qed.

Lemma GetInteractions_without_limit_bounds
    int_of_str rd user req t uid f c zs ze zr h d data :
  user !! "user_id" = Some uid ->
  range_primary_valid int_of_str req f c zs ze zr ->
  adjacency rd uid (VStr f) (Some (VInt zr)) = Ok h ->
  get_details rd h = Ok d ->
  VInt zr ∈ resolutions d ->
  absent req "limit_start" ->
  absent req "limit_end" ->
  get_range rd h (VStr c) (VInt zs) (VInt ze)
    (args_get req "limit_chr") VNone VNone
    (url_root req +:+ "mug/api/adjacency/getValue")
    (args_get req "no_links") = Ok data ->
  close rd h = Ok tt ->
  GetInteractions_get int_of_str rd (Some user) req t
  = (Ok (RRange
           {| env_self := url req;
              env_parent := url_root req +:+ "mug/api/adjacency";
              env_resolution := VInt zr;
              env_chr := VStr c;
              env_start := VInt zs;
              env_end := VInt ze;
              env_limit_chr := args_get req "limit_chr";
              env_limit_start := VNone;
              env_limit_end := VNone;
              interaction_count := Z.of_nat (length (results data));
              values := results data;
              env_log := log data |}),
     t ++ [EOpen uid (VStr f) (Some (VInt zr)); EGetDetails;
           EGetRange (VStr c) (VInt zs) (VInt ze)
             (args_get req "limit_chr") VNone VNone;
           EClose]).
Proof.
  intros Hu (Hf & Hc & (ss & Hs & Hzs) & (se & He & Hze) & (sr & Hr & Hzr))
         Hopen Hdet Hin Hls Hle Hrange Hclose.
  unfold args_get in Hrange.
  unfold GetInteractions_get. run_handler. unfold_monad.
  rewrite Hu, Hopen, Hdet. unfold py_in.
  rewrite bool_decide_eq_true_2 by assumption.
  cbn [negb orb]. rewrite Hrange, Hclose.
  now rewrite <- !app_assoc.
Qed.

(** C3 (amended). For an authenticated range request whose primary
    parameters are valid and whose resolution the dataset supports:
    a [limit_start] or a [limit_end] supplied without [limit_chr] is
    answered with the 400 [MissingParameters] payload, the reader having
    been asked for the details only, never for a range; a [limit_chr]
    supplied alone is not a rejection: the range is looked up with the
    limiting chromosome and no limiting bounds. *)
Theorem limit_bounds_require_limit_chr :
  (forall int_of_str rd user req t uid f c zs ze zr h d,
      user !! "user_id" = Some uid ->
      range_primary_valid int_of_str req f c zs ze zr ->
      adjacency rd uid (VStr f) (Some (VInt zr)) = Ok h ->
      get_details rd h = Ok d ->
      VInt zr ∈ resolutions d ->
      absent req "limit_chr" ->
      is_Some (args req !! "limit_start")
      \/ is_Some (args req !! "limit_end") ->
      exists m,
        GetInteractions_get int_of_str rd (Some user) req t
        = (Ok (RUsage m),
           t ++ [EOpen uid (VStr f) (Some (VInt zr)); EGetDetails])
        /\ status_code m = 400
        /\ error m = Some "MissingParameters")
  /\ (forall int_of_str rd user req t uid f c zs ze zr h d data,
         user !! "user_id" = Some uid ->
         range_primary_valid int_of_str req f c zs ze zr ->
         adjacency rd uid (VStr f) (Some (VInt zr)) = Ok h ->
         get_details rd h = Ok d ->
         VInt zr ∈ resolutions d ->
         absent req "limit_start" ->
         absent req "limit_end" ->
         get_range rd h (VStr c) (VInt zs) (VInt ze)
           (args_get req "limit_chr") VNone VNone
           (url_root req +:+ "mug/api/adjacency/getValue")
           (args_get req "no_links") = Ok data ->
         close rd h = Ok tt ->
         exists e,
           GetInteractions_get int_of_str rd (Some user) req t
           = (Ok (RRange e),
              t ++ [EOpen uid (VStr f) (Some (VInt zr)); EGetDetails;
                    EGetRange (VStr c) (VInt zs) (VInt ze)
                      (args_get req "limit_chr") VNone VNone;
                    EClose])
           /\ env_limit_chr e = args_get req "limit_chr"
           /\ values e = results data).
Proof.
  split.
  - intros int_of_str rd user req t uid f c zs ze zr h d
           Hu Hv Ho Hd Hin Hchr Hlim.
    eexists. split.
    + apply (GetInteractions_limit_without_chr
               _ _ _ _ _ _ _ _ _ _ _ _ _ Hu Hv Ho Hd Hin Hchr Hlim).
    + split; reflexivity.
  - intros int_of_str rd user req t uid f c zs ze zr h d data
           Hu Hv Ho Hd Hin Hls Hle Hrange Hclose.
    eexists. split.
    + apply (GetInteractions_without_limit_bounds
               _ _ _ _ _ _ _ _ _ _ _ _ _ _
               Hu Hv Ho Hd Hin Hls Hle Hrange Hclose).
    + split; reflexivity.
Qed.

Ltac solve_valid :=
  repeat match goal with
         | |- _ /\ _ => split
         | |- exists _, _ => eexists
         end; reflexivity.

Lemma limit_start_only_valid :
  range_primary_valid int_of_decimal
    (limited_request [("limit_start", "150")]) "test_file" "1" 100 200 10.
Proof. unfold range_primary_valid. solve_valid. Defined.

Lemma limit_chr_only_valid :
  range_primary_valid int_of_decimal
    (limited_request [("limit_chr", "2")]) "test_file" "1" 100 200 10.
Proof. unfold range_primary_valid. solve_valid. Defined.

Lemma resolution_10_supported : VInt 10 ∈ resolutions sample_details.
Proof. simpl. constructor. Defined.

Lemma limit_bounds_require_limit_chr_witness :
  (let req := limited_request [("limit_start", "150")] in
   sample_user !! "user_id" = Some (VStr "test_user")
   /\ range_primary_valid int_of_decimal req "test_file" "1" 100 200 10
   /\ (VInt 10 ∈ resolutions sample_details)
   /\ absent req "limit_chr"
   /\ (is_Some (args req !! "limit_start")
       \/ is_Some (args req !! "limit_end"))
   /\ exists m,
        GetInteractions_get int_of_decimal sample_reader (Some sample_user)
          req []
        = (Ok (RUsage m),
           [EOpen (VStr "test_user") (VStr "test_file") (Some (VInt 10));
            EGetDetails])
        /\ status_code m = 400
        /\ error m = Some "MissingParameters")
  /\ (let req := limited_request [("limit_chr", "2")] in
      absent req "limit_start"
      /\ absent req "limit_end"
      /\ exists e,
           GetInteractions_get int_of_decimal sample_reader
             (Some sample_user) req []
           = (Ok (RRange e),
              [EOpen (VStr "test_user") (VStr "test_file")
                 (Some (VInt 10)); EGetDetails;
               EGetRange (VStr "1") (VInt 100) (VInt 200)
                 (VStr "2") VNone VNone;
               EClose])
           /\ env_limit_chr e = VStr "2"
           /\ values e = sample_records).
Proof.
  split.
  - intros req.
    assert (Hlim : is_Some (args req !! "limit_start")
                   \/ is_Some (args req !! "limit_end"))
      by (left; exists "150"; reflexivity).
    split; [reflexivity|].
    split; [exact limit_start_only_valid|].
    split; [exact resolution_10_supported|].
    split; [reflexivity|].
    split; [exact Hlim|].
    exact (proj1 limit_bounds_require_limit_chr
             int_of_decimal sample_reader sample_user req []
             (VStr "test_user") "test_file" "1" 100 200 10 tt sample_details
             eq_refl limit_start_only_valid eq_refl eq_refl
             resolution_10_supported eq_refl Hlim).
  - intros req.
    split; [reflexivity|]. split; [reflexivity|].
    exact (proj2 limit_bounds_require_limit_chr
             int_of_decimal sample_reader sample_user req []
             (VStr "test_user") "test_file" "1" 100 200 10 tt sample_details
             {| results := sample_records; log := [] |}
             eq_refl limit_chr_only_valid eq_refl eq_refl
             resolution_10_supported eq_refl eq_refl eq_refl eq_refl).
Defined.

(** C3, as stated, fails: with valid primary parameters and exactly one
    member of the limiting triple, [limit_chr], the request is not
    rejected; the reader is asked for the range and the envelope is
    returned. *)
Lemma limit_chr_alone_is_served :
  let req := limited_request [("limit_chr", "2")] in
  range_primary_valid int_of_decimal req "test_file" "1" 100 200 10
  /\ args req !! "limit_chr" = Some "2"
  /\ absent req "limit_start"
  /\ absent req "limit_end"
  /\ exists e,
       GetInteractions_get int_of_decimal sample_reader (Some sample_user)
         req []
       = (Ok (RRange e),
          [EOpen (VStr "test_user") (VStr "test_file") (Some (VInt 10));
           EGetDetails;
           EGetRange (VStr "1") (VInt 100) (VInt 200) (VStr "2") VNone VNone;
           EClose])
       /\ interaction_count e = 2.
Proof.
  intros req.
  split; [exact limit_chr_only_valid|].
  split; [reflexivity|]. split; [reflexivity|]. split; [reflexivity|].
  eexists. split; [vm_compute; reflexivity | reflexivity].
Qed.

(** ** Requests with some required parameter missing *)

Lemma Exists_absent_cases req (l : list string) :
  Exists (absent req) l -> Forall (present req) l -> False.
Proof.
  intros Hex Hall. rewrite Forall_forall in Hall.
  apply Exists_exists in Hex as (k & Hk & Habs).
  destruct (Hall k Hk) as [s Hs]. unfold absent in Habs. congruence.
Qed.

Ltac split_lookups req keys :=
  lazymatch keys with
  | nil => idtac
  | ?k :: ?ks =>
      let E := fresh "E" in
      destruct (args req !! k) eqn:E; split_lookups req ks
  end.

Ltac all_present :=
  repeat constructor; unfold present;
  match goal with
  | E : ?x = Some _ |- is_Some ?x => rewrite E; eauto
  end.

Lemma GetInteractions_missing int_of_str rd user req t :
  Exists (absent req) range_primary ->
  GetInteractions_get int_of_str rd (Some user) req t
  = (Ok (RUsage (help_usage req (Some "MissingParameters") 400
                   range_params_required (raw_echo req range_echoed))), t).
Proof.
  intros Habs. unfold GetInteractions_get, raw_echo, range_echoed.
  cbn [map]. unfold args_get.
  split_lookups req ["file_id"; "chr"; "start"; "end"; "res"];
    try reflexivity.
  exfalso. apply (Exists_absent_cases _ _ Habs). all_present.
Qed.

Lemma GetValue_missing int_of_str rd user req t :
  Exists (absent req) point_primary ->
  GetValue_get int_of_str rd (Some user) req t
  = (Ok (RUsage (help_usage req (Some "MissingParameters") 400
                   ["user_id"; "file_id"; "res"; "pos_x"; "pos_y"]
                   (<["resolution" := args_get req "res"]>
                      (raw_echo req ["file_id"; "pos_x"; "pos_y"])))), t).
Proof.
  intros Habs. unfold GetValue_get, raw_echo.
  cbn [map]. unfold args_get.
  split_lookups req ["file_id"; "res"; "pos_x"; "pos_y"];
    try reflexivity.
  exfalso. apply (Exists_absent_cases _ _ Habs). all_present.
Qed.

(** C6 (amended). For an authenticated caller of the range or the point
    operation who supplies some but not all of the required parameters,
    the answer is the 400 [MissingParameters] payload, produced without
    touching the reader.  Its [provided_parameters] is not the supplied
    input alone: it has one entry for every parameter name the operation
    echoes, holding the string received for it, uncoerced, or [None] when
    the name was not sent.  The range operation echoes the eight names of
    [range_echoed]; the point operation echoes [file_id], [pos_x], [pos_y]
    and, under the name [resolution], what it received as [res]. *)
Theorem missing_parameters_echo_every_name :
  (forall int_of_str rd user req t,
      Exists (present req) range_primary ->
      Exists (absent req) range_primary ->
      exists m,
        GetInteractions_get int_of_str rd (Some user) req t
        = (Ok (RUsage m), t)
        /\ status_code m = 400
        /\ error m = Some "MissingParameters"
        /\ provided_parameters m = Some (raw_echo req range_echoed))
  /\ (forall int_of_str rd user req t,
         Exists (present req) point_primary ->
         Exists (absent req) point_primary ->
         exists m,
           GetValue_get int_of_str rd (Some user) req t
           = (Ok (RUsage m), t)
           /\ status_code m = 400
           /\ error m = Some "MissingParameters"
           /\ provided_parameters m
              = Some (<["resolution" := args_get req "res"]>
                        (raw_echo req ["file_id"; "pos_x"; "pos_y"]))).
Proof.
  split; intros int_of_str rd user req t _ Habs; eexists.
  - split; [apply (GetInteractions_missing _ _ _ _ _ Habs)|].
    split; [reflexivity|]. split; [reflexivity|].
    apply help_usage_provided. unfold raw_echo, range_echoed.
    cbn [map list_to_map foldr uncurry]. apply insert_non_empty.
  - split; [apply (GetValue_missing _ _ _ _ _ Habs)|].
    split; [reflexivity|]. split; [reflexivity|].
    apply help_usage_provided, insert_non_empty.
Qed.

Lemma file_only_some_present : Exists (present file_only_request) range_primary.
Proof. apply Exists_cons_hd. exists "test_file". reflexivity. Defined.

Lemma file_only_some_absent : Exists (absent file_only_request) range_primary.
Proof. apply Exists_cons_tl, Exists_cons_hd. reflexivity. Defined.

Lemma res_only_some_present : Exists (present res_only_request) point_primary.
Proof. apply Exists_cons_tl, Exists_cons_hd. exists "10". reflexivity. Defined.

Lemma res_only_some_absent : Exists (absent res_only_request) point_primary.
Proof. apply Exists_cons_hd. reflexivity. Defined.

Lemma missing_parameters_echo_every_name_witness :
  (Exists (present file_only_request) range_primary
   /\ Exists (absent file_only_request) range_primary
   /\ exists m,
        GetInteractions_get int_of_decimal sample_reader (Some sample_user)
          file_only_request [] = (Ok (RUsage m), [])
        /\ status_code m = 400
        /\ error m = Some "MissingParameters"
        /\ provided_parameters m
           = Some (raw_echo file_only_request range_echoed))
  /\ (Exists (present res_only_request) point_primary
      /\ Exists (absent res_only_request) point_primary
      /\ exists m,
           GetValue_get int_of_decimal sample_reader (Some sample_user)
             res_only_request [] = (Ok (RUsage m), [])
           /\ status_code m = 400
           /\ error m = Some "MissingParameters"
           /\ provided_parameters m
              = Some (<["resolution" := args_get res_only_request "res"]>
                        (raw_echo res_only_request
                           ["file_id"; "pos_x"; "pos_y"]))).
Proof.
  split.
  - split; [exact file_only_some_present|].
    split; [exact file_only_some_absent|].
    exact (proj1 missing_parameters_echo_every_name
             int_of_decimal sample_reader sample_user file_only_request []
             file_only_some_present file_only_some_absent).
  - split; [exact res_only_some_present|].
    split; [exact res_only_some_absent|].
    exact (proj2 missing_parameters_echo_every_name
             int_of_decimal sample_reader sample_user res_only_request []
             res_only_some_present res_only_some_absent).
Defined.

(** C6, as stated, fails: the caller of [file_only_request] supplies
    [file_id] alone, and the [provided_parameters] of the rejection is
    not that input: it also lists the seven names that were not sent,
    each with [None].  Likewise the point operation answers a caller who
    sent [res] alone with an entry named [resolution], not [res]. *)
Lemma missing_parameters_echo_is_not_the_input :
  (exists m,
      GetInteractions_get int_of_decimal sample_reader (Some sample_user)
        file_only_request [] = (Ok (RUsage m), [])
      /\ error m = Some "MissingParameters"
      /\ raw_input file_only_request = {[ "file_id" := VStr "test_file" ]}
      /\ provided_parameters m <> Some (raw_input file_only_request)
      /\ echoed m "file_id" = Some (VStr "test_file")
      /\ echoed m "chr" = Some VNone
      /\ echoed m "limit_end" = Some VNone)
  /\ (exists m,
         GetValue_get int_of_decimal sample_reader (Some sample_user)
           res_only_request [] = (Ok (RUsage m), [])
         /\ error m = Some "MissingParameters"
         /\ raw_input res_only_request = {[ "res" := VStr "10" ]}
         /\ provided_parameters m <> Some (raw_input res_only_request)
         /\ echoed m "res" = None
         /\ echoed m "resolution" = Some (VStr "10")).
Proof.
  split; eexists; (split; [vm_compute; reflexivity|]);
    (split; [reflexivity|]); (split; [vm_compute; reflexivity|]);
    (split; [|repeat split; vm_compute; reflexivity]); intros Heq.
  - apply (f_equal (fun o : option (gmap string value) =>
                      match o with Some d => d !! "chr" | None => None end))
      in Heq.
    vm_compute in Heq. discriminate Heq.
  - apply (f_equal (fun o : option (gmap string value) =>
                      match o with Some d => d !! "res" | None => None end))
      in Heq.
    vm_compute in Heq. discriminate Heq.
Qed.

(** ** Numeric parameters that are not integers *)

Ltac echo_cases :=
  eexists; split; [reflexivity|];
  split; [reflexivity|]; split; [reflexivity|];
  repeat split; intros; solve [congruence | reflexivity].

Lemma GetInteractions_incorrect_type int_of_str rd user req t f c s e r :
  args req !! "file_id" = Some f ->
  args req !! "chr" = Some c ->
  args req !! "start" = Some s ->
  args req !! "end" = Some e ->
  args req !! "res" = Some r ->
  int_of_str s = None \/ int_of_str e = None \/ int_of_str r = None ->
  exists m,
    GetInteractions_get int_of_str rd (Some user) req t = (Ok (RUsage m), t)
    /\ status_code m = 400
    /\ error m = Some "IncorrectParameterType"
    /\ (int_of_str s = None -> echoed m "start" = Some (VStr s))
    /\ (int_of_str e = None -> echoed m "end" = Some (VStr e))
    /\ (int_of_str r = None -> echoed m "res" = Some (VStr r)).
Proof.
  intros Hf Hc Hs He Hr Hfail.
  unfold GetInteractions_get. unfold args_get.
  rewrite Hf, Hc, Hs, He, Hr.
  cbn [py_sum map fold_left is_None negb length Nat.eqb py_int].
  destruct (int_of_str s) as [zs|] eqn:Ezs; [|echo_cases].
  destruct (int_of_str e) as [ze|] eqn:Eze; [|echo_cases].
  destruct (int_of_str r) as [zr|] eqn:Ezr; [|echo_cases].
  exfalso. destruct Hfail as [H|[H|H]]; discriminate H.
Qed.

Lemma GetValue_incorrect_type int_of_str rd user req t f r x y :
  args req !! "file_id" = Some f ->
  args req !! "res" = Some r ->
  args req !! "pos_x" = Some x ->
  args req !! "pos_y" = Some y ->
  int_of_str x = None \/ int_of_str y = None \/ int_of_str r = None ->
  exists m,
    GetValue_get int_of_str rd (Some user) req t = (Ok (RUsage m), t)
    /\ status_code m = 400
    /\ error m = Some "IncorrectParameterType"
    /\ (int_of_str x = None -> echoed m "pos_x" = Some (VStr x))
    /\ (int_of_str y = None -> echoed m "pos_y" = Some (VStr y))
    /\ (int_of_str r = None -> echoed m "resolution" = Some (VStr r)).
Proof.
  intros Hf Hr Hx Hy Hfail.
  unfold GetValue_get. unfold args_get.
  rewrite Hf, Hr, Hx, Hy.
  cbn [py_sum map fold_left is_None negb length Nat.eqb py_int].
  destruct (int_of_str x) as [zx|] eqn:Ezx; [|echo_cases].
  destruct (int_of_str y) as [zy|] eqn:Ezy; [|echo_cases].
  destruct (int_of_str r) as [zr|] eqn:Ezr; [|echo_cases].
  exfalso. destruct Hfail as [H|[H|H]]; discriminate H.
Qed.

Lemma GetInteractions_limit_incorrect_type
    int_of_str rd user req t uid f c zs ze zr h d lc ls :
  user !! "user_id" = Some uid ->
  range_primary_valid int_of_str req f c zs ze zr ->
  adjacency rd uid (VStr f) (Some (VInt zr)) = Ok h ->
  get_details rd h = Ok d ->
  VInt zr ∈ resolutions d ->
  args req !! "limit_chr" = Some lc ->
  args req !! "limit_start" = Some ls ->
  int_of_str ls = None
  \/ (exists le, args req !! "limit_end" = Some le /\ int_of_str le = None) ->
  exists m,
    GetInteractions_get int_of_str rd (Some user) req t
    = (Ok (RUsage m),
       t ++ [EOpen uid (VStr f) (Some (VInt zr)); EGetDetails])
    /\ status_code m = 400
    /\ error m = Some "IncorrectParameterType"
    /\ (int_of_str ls = None -> echoed m "limit_start" = Some (VStr ls))
    /\ (forall le, args req !! "limit_end" = Some le ->
                   int_of_str le = None ->
                   echoed m "limit_end" = Some (VStr le)).
Proof.
  intros Hu (Hf & Hc & (ss & Hs & Hzs) & (se & He & Hze) & (sr & Hr & Hzr))
         Hopen Hdet Hin Hlc Hls Hfail.
  unfold GetInteractions_get. unfold args_get.
  rewrite Hf, Hc, Hs, He, Hr, Hlc, Hls.
  cbn [py_sum map fold_left is_None negb length Nat.eqb py_int].
  rewrite Hzs, Hze, Hzr. unfold_monad.
  rewrite Hu, Hopen, Hdet. unfold py_in.
  rewrite bool_decide_eq_true_2 by assumption.
  cbn [negb orb is_None]. rewrite <- app_assoc. cbn [app].
  destruct (int_of_str ls) as [zl|] eqn:Ezl.
  - destruct Hfail as [H|(le & Hle & Hzle)]; [discriminate H|].
    rewrite Hle. cbn [py_int]. rewrite Hzle.
    eexists. split; [reflexivity|].
    split; [reflexivity|]. split; [reflexivity|].
    split; [intros H; discriminate H|].
    intros le' Hle' _. assert (le' = le) as -> by congruence. reflexivity.
  - eexists. split; [reflexivity|].
    split; [reflexivity|]. split; [reflexivity|].
    split; [reflexivity|].
    intros le Hle _. rewrite Hle. reflexivity.
Qed.

(** C7 (amended). For an authenticated range or point request whose
    primary parameters are all present, a primary numeric parameter
    ([start], [end], [res]; [pos_x], [pos_y], [res]) whose string is not an
    integer yields the 400 [IncorrectParameterType] payload before the
    reader is touched.  For a range request that passed the primary checks
    and the resolution check and carries [limit_chr] and [limit_start], a
    [limit_start], or a supplied [limit_end], that is not an integer
    yields the same rejection.  In each case every value that failed the
    coercion is echoed as it was received (the point operation echoes
    [res] under the name [resolution]). *)
Theorem incorrect_type_echoes_failed_values :
  (forall int_of_str rd user req t f c s e r,
      args req !! "file_id" = Some f ->
      args req !! "chr" = Some c ->
      args req !! "start" = Some s ->
      args req !! "end" = Some e ->
      args req !! "res" = Some r ->
      int_of_str s = None \/ int_of_str e = None \/ int_of_str r = None ->
      exists m,
        GetInteractions_get int_of_str rd (Some user) req t
        = (Ok (RUsage m), t)
        /\ status_code m = 400
        /\ error m = Some "IncorrectParameterType"
        /\ (int_of_str s = None -> echoed m "start" = Some (VStr s))
        /\ (int_of_str e = None -> echoed m "end" = Some (VStr e))
        /\ (int_of_str r = None -> echoed m "res" = Some (VStr r)))
  /\ (forall int_of_str rd user req t f r x y,
         args req !! "file_id" = Some f ->
         args req !! "res" = Some r ->
         args req !! "pos_x" = Some x ->
         args req !! "pos_y" = Some y ->
         int_of_str x = None \/ int_of_str y = None \/ int_of_str r = None ->
         exists m,
           GetValue_get int_of_str rd (Some user) req t = (Ok (RUsage m), t)
           /\ status_code m = 400
           /\ error m = Some "IncorrectParameterType"
           /\ (int_of_str x = None -> echoed m "pos_x" = Some (VStr x))
           /\ (int_of_str y = None -> echoed m "pos_y" = Some (VStr y))
           /\ (int_of_str r = None ->
               echoed m "resolution" = Some (VStr r)))
  /\ (forall int_of_str rd user req t uid f c zs ze zr h d lc ls,
         user !! "user_id" = Some uid ->
         range_primary_valid int_of_str req f c zs ze zr ->
         adjacency rd uid (VStr f) (Some (VInt zr)) = Ok h ->
         get_details rd h = Ok d ->
         VInt zr ∈ resolutions d ->
         args req !! "limit_chr" = Some lc ->
         args req !! "limit_start" = Some ls ->
         int_of_str ls = None
         \/ (exists le, args req !! "limit_end" = Some le
                        /\ int_of_str le = None) ->
         exists m,
           GetInteractions_get int_of_str rd (Some user) req t
           = (Ok (RUsage m),
              t ++ [EOpen uid (VStr f) (Some (VInt zr)); EGetDetails])
           /\ status_code m = 400
           /\ error m = Some "IncorrectParameterType"
           /\ (int_of_str ls = None ->
               echoed m "limit_start" = Some (VStr ls))
           /\ (forall le, args req !! "limit_end" = Some le ->
                          int_of_str le = None ->
                          echoed m "limit_end" = Some (VStr le))).
Proof.
  split; [|split].
  - intros int_of_str rd user req t f c s e r.
    apply GetInteractions_incorrect_type.
  - intros int_of_str rd user req t f r x y.
    apply GetValue_incorrect_type.
  - intros int_of_str rd user req t uid f c zs ze zr h d lc ls.
    apply GetInteractions_limit_incorrect_type.
Qed.

Lemma bad_limit_request_valid :
  range_primary_valid int_of_decimal bad_limit_request
    "test_file" "1" 100 200 10.
Proof. unfold range_primary_valid. solve_valid. Defined.

Lemma incorrect_type_echoes_failed_values_witness :
  (exists m,
      GetInteractions_get int_of_decimal sample_reader (Some sample_user)
        bad_end_request [] = (Ok (RUsage m), [])
      /\ status_code m = 400
      /\ error m = Some "IncorrectParameterType"
      /\ echoed m "end" = Some (VStr "x"))
  /\ (exists m,
         GetValue_get int_of_decimal sample_reader (Some sample_user)
           bad_pos_request [] = (Ok (RUsage m), [])
         /\ status_code m = 400
         /\ error m = Some "IncorrectParameterType"
         /\ echoed m "pos_x" = Some (VStr "a"))
  /\ (exists m,
         GetInteractions_get int_of_decimal sample_reader (Some sample_user)
           bad_limit_request []
         = (Ok (RUsage m),
            [EOpen (VStr "test_user") (VStr "test_file") (Some (VInt 10));
             EGetDetails])
         /\ status_code m = 400
         /\ error m = Some "IncorrectParameterType"
         /\ echoed m "limit_end" = Some (VStr "y")).
Proof.
  destruct incorrect_type_echoes_failed_values as (Trange & Tpoint & Tlimit).
  split; [|split].
  - destruct (Trange int_of_decimal sample_reader sample_user
                bad_end_request [] "test_file" "1" "007" "x" "10"
                eq_refl eq_refl eq_refl eq_refl eq_refl
                (or_intror (or_introl eq_refl)))
      as (m & Hrun & Hcode & Herr & _ & Hend & _).
    exists m. repeat split; try assumption. exact (Hend eq_refl).
  - destruct (Tpoint int_of_decimal sample_reader sample_user
                bad_pos_request [] "test_file" "10" "a" "20"
                eq_refl eq_refl eq_refl eq_refl (or_introl eq_refl))
      as (m & Hrun & Hcode & Herr & Hx & _ & _).
    exists m. repeat split; try assumption. exact (Hx eq_refl).
  - destruct (Tlimit int_of_decimal sample_reader sample_user
                bad_limit_request [] (VStr "test_user")
                "test_file" "1" 100 200 10 tt sample_details "2" "150"
                eq_refl bad_limit_request_valid eq_refl eq_refl
                resolution_10_supported eq_refl eq_refl
                (or_intror (ex_intro _ "y" (conj eq_refl eq_refl))))
      as (m & Hrun & Hcode & Herr & _ & Hle).
    exists m. repeat split; try assumption. exact (Hle "y" eq_refl eq_refl).
Defined.

(** C7, as stated, fails.  A numeric parameter that is not an integer
    does not always yield [IncorrectParameterType]: [limit_start = "x"]
    sent without [limit_chr] is answered with [MissingParameters].  And the
    rejection does echo coerced values: when [end] fails after [start] was
    coerced, the payload carries the integer 7 for the [start] that was
    received as ["007"]. *)
Lemma incorrect_type_is_not_always_verbatim :
  (let req := limited_request [("limit_start", "x")] in
   args req !! "limit_start" = Some "x"
   /\ int_of_decimal "x" = None
   /\ exists m,
        fst (GetInteractions_get int_of_decimal sample_reader
               (Some sample_user) req []) = Ok (RUsage m)
        /\ error m = Some "MissingParameters"
        /\ error m <> Some "IncorrectParameterType")
  /\ (args bad_end_request !! "start" = Some "007"
      /\ exists m,
           fst (GetInteractions_get int_of_decimal sample_reader
                  (Some sample_user) bad_end_request []) = Ok (RUsage m)
           /\ error m = Some "IncorrectParameterType"
           /\ echoed m "start" = Some (VInt 7)
           /\ echoed m "start" <> Some (VStr "007")).
Proof.
  split.
  - intros req. split; [reflexivity|]. split; [reflexivity|].
    eexists. split; [vm_compute; reflexivity|].
    split; [reflexivity | discriminate].
  - split; [reflexivity|].
    eexists. split; [vm_compute; reflexivity|].
    split; [reflexivity|].
    split; [vm_compute; reflexivity|].
    intros H. vm_compute in H. discriminate H.
Qed.

(** ** Worked runs *)

Lemma interaction_count_is_length_witness :
  exists e t',
    GetInteractions_get int_of_decimal sample_reader (Some sample_user)
      supported_request [] = (Ok (RRange e), t')
    /\ values e = sample_records
    /\ interaction_count e = Z.of_nat (length (values e)).
Proof.
  eexists. eexists.
  assert (Hrun : GetInteractions_get int_of_decimal sample_reader
                   (Some sample_user) supported_request []
                 = (Ok (RRange _), _)) by (vm_compute; reflexivity).
  split; [exact Hrun|]. split; [reflexivity|].
  exact (interaction_count_is_length _ _ _ _ _ _ _ Hrun).
Defined.

Lemma output_tsv_range_lines_witness :
  endpoint supported_request = "values"
  /\ output_tsv supported_request (RRange sample_envelope) 200 None
     = Ok (Some {| body := tsv_lines sample_records;
                   http_code := 200;
                   http_headers := [] |}).
Proof.
  split; [reflexivity|].
  exact (proj1 output_tsv_range_lines
           supported_request sample_envelope 200 None eq_refl).
Defined.

Lemma help_usage_describes_table_names_witness :
  exists m,
    GetInteractions_get int_of_decimal sample_reader (Some sample_user)
      file_only_request [] = (Ok (RUsage m), [])
    /\ usage_parameters (usage m) = used_param range_described
    /\ usage_parameters (usage m) !! "chrom" = None
    /\ usage_parameters (usage m) !! "chr_id" = None
    /\ usage_parameters (usage m) !! "user_id" = None.
Proof.
  eexists.
  assert (Hrun : GetInteractions_get int_of_decimal sample_reader
                   (Some sample_user) file_only_request []
                 = (Ok (RUsage _), [])) by (vm_compute; reflexivity).
  split; [exact Hrun|].
  exact (proj2 help_usage_describes_table_names _ _ _ _ _ _ _ Hrun).
Defined.

(** The range handler on the rejections that follow the opening of the
    handle, and on a limiting chromosome with a single bound, where
    [int(limit_end)] is applied to [None]. *)
Example range_runs_after_open :
  let run req :=
    GetInteractions_get int_of_decimal sample_reader (Some sample_user)
      req [] in
  let after_details :=
    [EOpen (VStr "test_user") (VStr "test_file") (Some (VInt 10));
     EGetDetails] in
  snd (run (limited_request [("limit_start", "150")])) = after_details
  /\ snd (run bad_limit_request) = after_details
  /\ run (limited_request [("limit_chr", "2"); ("limit_start", "150")])
     = (Raise TypeError, after_details).
Proof. repeat split; vm_compute; reflexivity. Qed.

(** The point lookup at bins 10 and 20 of a dataset whose bins 0-15 are
    on chr1: two reverse lookups, one handle, closed once. *)
Example point_lookup_run :
  exists e,
    GetValue_get int_of_decimal sample_reader (Some sample_user)
      point_request []
    = (Ok (RValue e),
       [EOpen (VStr "test_user") (VStr "test_file") (Some (VInt 1000));
        EGetValue (VInt 10) (VInt 20);
        EGetChromosome (VInt 10); EGetChromosome (VInt 20); EClose])
    /\ val_chrA e = VStr "chr1" /\ val_chrB e = VStr "chr2"
    /\ val_value e = VInt 3.
Proof.
  eexists. split; [vm_compute; reflexivity|]. repeat split.
Qed.

(** * Further properties of [rest/app.py] *)

(** ** The tabular body: rows and columns *)

Lemma append_cons (x : ascii) (a b : string) :
  String x a +:+ b = String x (a +:+ b).
Proof. reflexivity. Qed.

Lemma count_char_app (c : ascii) (a b : string) :
  count_char c (a +:+ b) = (count_char c a + count_char c b)%nat.
Proof.
  induction a as [|x a IH]; [reflexivity|].
  rewrite append_cons. simpl. rewrite IH. lia.
Qed.

Lemma clean_digit (d : N) (s : string) :
  clean s -> clean (String (pretty_N_char d) s).
Proof.
  intros [Ht Hn]. unfold clean, pretty_N_char.
  repeat case_match; simpl; rewrite ?Ht, ?Hn; split; reflexivity.
Qed.

Lemma clean_pretty_N_go (x : N) (s : string) :
  clean s -> clean (pretty_N_go x s).
Proof.
  revert s. induction (N.lt_wf_0 x) as [x _ IH]. intros s Hs.
  destruct (decide (x = 0)%N) as [->|Hx].
  - now rewrite pretty_N_go_0.
  - rewrite pretty_N_go_step by lia.
    apply IH; [apply N.div_lt; lia | now apply clean_digit].
Qed.

Lemma clean_empty : clean "".
Proof. split; reflexivity. Qed.

Lemma clean_pretty_N (x : N) : clean (pretty x).
Proof.
  unfold pretty, pretty_N. destruct (decide (x = 0)%N).
  - split; reflexivity.
  - apply clean_pretty_N_go, clean_empty.
Qed.

Lemma clean_pretty_Z (z : Z) : clean (pretty z).
Proof.
  destruct z as [|p|p].
  - split; reflexivity.
  - apply (clean_pretty_N (Npos p)).
  - assert (Hp : clean (pretty p)) by apply (clean_pretty_N (Npos p)).
    destruct Hp as [Ht Hn].
    change (pretty (Z.neg p)) with ("-" +:+ pretty p).
    split; rewrite count_char_app; [rewrite Ht | rewrite Hn]; reflexivity.
Qed.

(** An integer or [None] field never holds a separator. *)
Lemma clean_py_str (v : value) : field_clean v -> clean (py_str v).
Proof.
  destruct v as [|s|z]; simpl; intros H.
  - split; reflexivity.
  - exact H.
  - apply clean_pretty_Z.
Qed.

Lemma record_clean_fields (v : interaction) :
  record_clean v -> Forall clean (fields v).
Proof.
  unfold record_clean, fields. intros H.
  repeat match goal with
         | H : Forall _ (_ :: _) |- _ => inversion H; subst; clear H
         end.
  repeat constructor; now apply clean_py_str.
Qed.

Lemma tsv_line_counts (v : interaction) :
  record_clean v ->
  count_char tab_char (tsv_line v) = 4%nat
  /\ count_char newline_char (tsv_line v) = 1%nat.
Proof.
  intros H. apply record_clean_fields in H. unfold fields in H.
  repeat match goal with
         | H : Forall _ (_ :: _) |- _ => inversion H; subst; clear H
         end.
  repeat match goal with
         | H : clean _ |- _ => destruct H as [? ?]
         end.
  unfold tsv_line. rewrite !count_char_app.
  split; simpl; lia.
Qed.

Lemma tsv_lines_counts (vs : list interaction) :
  Forall record_clean vs ->
  count_char tab_char (tsv_lines vs) = (4 * length vs)%nat
  /\ count_char newline_char (tsv_lines vs) = length vs.
Proof.
  induction 1 as [|v vs Hv _ [IHt IHn]]; [split; reflexivity|].
  destruct (tsv_line_counts v Hv) as [Ht Hn].
  simpl. rewrite !count_char_app, IHt, IHn, Ht, Hn. split; lia.
Qed.

Lemma tsv_body_lines (vs : list interaction) : tsv_body vs = tsv_lines vs.
Proof. unfold tsv_body. now rewrite tsv_fold_lines. Qed.

(** X1. When no printed field of a record holds a tab or a newline (as is
    the case of every integer and [None] field), the body built by
    [output_tsv] has one newline per record and four tabs per record: it
    reads back as a table of five columns with as many rows as the
    envelope has values. *)
Theorem tsv_body_rows_and_columns :
  forall (req : request) (e : range_envelope) (code : Z)
         (headers : option (list (string * string))),
    endpoint req = "values" ->
    Forall record_clean (values e) ->
    exists r,
      output_tsv req (RRange e) code headers = Ok (Some r)
      /\ body r = tsv_body (values e)
      /\ count_char newline_char (body r) = length (values e)
      /\ count_char tab_char (body r) = (4 * length (values e))%nat.
Proof.
  intros req e code headers Hep Hclean.
  unfold output_tsv. destruct (decide (endpoint req = "values")); [|done].
  simpl. eexists. split; [reflexivity|]. simpl. fold (tsv_body (values e)).
  rewrite tsv_body_lines.
  destruct (tsv_lines_counts _ Hclean) as [Ht Hn]. auto.
Qed.

Lemma sample_records_clean : Forall record_clean sample_records.
Proof.
  repeat constructor.
Defined.

Lemma tsv_body_rows_and_columns_witness :
  endpoint supported_request = "values"
  /\ Forall record_clean (values sample_envelope)
  /\ exists r,
       output_tsv supported_request (RRange sample_envelope) 200 None
       = Ok (Some r)
       /\ body r = tsv_body sample_records
       /\ count_char newline_char (body r) = 2%nat
       /\ count_char tab_char (body r) = 8%nat.
Proof.
  split; [reflexivity|]. split; [exact sample_records_clean|].
  exact (tsv_body_rows_and_columns supported_request sample_envelope 200 None
           eq_refl sample_records_clean).
Defined.

(** ** The tabular body determines the printed records *)

Lemma count_char_self (c : ascii) (s : string) :
  count_char c (String c s) <> 0%nat.
Proof. simpl. rewrite Ascii.eqb_refl. lia. Qed.

(** Two strings free of [c], each followed by [c], split a common string
    at the same place. *)
Lemma append_sep_inj (c : ascii) (s1 s2 r1 r2 : string) :
  count_char c s1 = 0%nat -> count_char c s2 = 0%nat ->
  s1 +:+ String c r1 = s2 +:+ String c r2 ->
  s1 = s2 /\ r1 = r2.
Proof.
  revert s2. induction s1 as [|x s1 IH]; intros [|y s2] H1 H2 Heq.
  - injection Heq as ->. split; reflexivity.
  - rewrite append_cons in Heq. injection Heq as <- _.
    now apply count_char_self in H2.
  - rewrite append_cons in Heq. injection Heq as -> _.
    now apply count_char_self in H1.
  - rewrite !append_cons in Heq. injection Heq as -> Heq.
    simpl in H1, H2.
    destruct (IH s2) as [-> ->]; [lia | lia | exact Heq | split; reflexivity].
Qed.

Lemma tsv_line_sep (v : interaction) (rest : string) :
  tsv_line v +:+ rest
  = py_str (chrA v) +:+ String tab_char
      (py_str (startA v) +:+ String tab_char
         (py_str (chrB v) +:+ String tab_char
            (py_str (startB v) +:+ String tab_char
               (py_str (ivalue v) +:+ String newline_char rest)))).
Proof. unfold tsv_line. rewrite !append_assoc'. reflexivity. Qed.

Lemma tsv_line_inj (v1 v2 : interaction) (r1 r2 : string) :
  record_clean v1 -> record_clean v2 ->
  tsv_line v1 +:+ r1 = tsv_line v2 +:+ r2 ->
  fields v1 = fields v2 /\ r1 = r2.
Proof.
  intros H1 H2. apply record_clean_fields in H1, H2. unfold fields in *.
  repeat match goal with
         | H : Forall _ (_ :: _) |- _ => inversion H; subst; clear H
         end.
  repeat match goal with
         | H : clean _ |- _ => destruct H as [? ?]
         end.
  rewrite !tsv_line_sep. intros Heq.
  repeat match goal with
         | H : _ +:+ String _ _ = _ +:+ String _ _ |- _ =>
             apply append_sep_inj in H; [destruct H as [-> ?] | assumption..]
         end.
  subst. split; reflexivity.
Qed.

Lemma tsv_lines_inj (vs1 vs2 : list interaction) :
  Forall record_clean vs1 -> Forall record_clean vs2 ->
  tsv_lines vs1 = tsv_lines vs2 ->
  map fields vs1 = map fields vs2.
Proof.
  intros H1. revert vs2.
  induction H1 as [|v1 vs1 Hv1 _ IH]; intros vs2 H2 Heq;
    destruct H2 as [|v2 vs2 Hv2 H2]; simpl in Heq.
  - reflexivity.
  - exfalso. apply (f_equal (count_char newline_char)) in Heq.
    rewrite count_char_app in Heq.
    destruct (tsv_line_counts v2 Hv2) as [_ Hn]. simpl in Heq. lia.
  - exfalso. apply (f_equal (count_char newline_char)) in Heq.
    rewrite count_char_app in Heq.
    destruct (tsv_line_counts v1 Hv1) as [_ Hn]. simpl in Heq. lia.
  - apply tsv_line_inj in Heq as [Hf Hr]; [|assumption..].
    simpl. rewrite Hf. f_equal. now apply IH.
Qed.

(** X2. The tabular rendering loses none of the printed records: two
    range envelopes whose fields hold no separator and that [output_tsv]
    renders to the same response have the same sequence of printed
    records, field by field and in the same order. *)
Theorem tsv_body_determines_fields :
  forall (req : request) (e1 e2 : range_envelope) (code : Z)
         (headers : option (list (string * string))),
    endpoint req = "values" ->
    Forall record_clean (values e1) ->
    Forall record_clean (values e2) ->
    output_tsv req (RRange e1) code headers
    = output_tsv req (RRange e2) code headers ->
    map fields (values e1) = map fields (values e2).
Proof.
  intros req e1 e2 code headers Hep H1 H2 Heq.
  unfold output_tsv in Heq.
  destruct (decide (endpoint req = "values")); [|done].
  simpl in Heq. injection Heq as Heq.
  rewrite !tsv_fold_lines in Heq. now apply tsv_lines_inj.
Qed.

Lemma string_records_clean : Forall record_clean string_records.
Proof. repeat constructor. Defined.

Lemma tsv_body_determines_fields_witness :
  endpoint supported_request = "values"
  /\ Forall record_clean (values sample_envelope)
  /\ Forall record_clean (values string_envelope)
  /\ output_tsv supported_request (RRange sample_envelope) 200 None
     = output_tsv supported_request (RRange string_envelope) 200 None
  /\ map fields (values sample_envelope)
     = map fields (values string_envelope).
Proof.
  assert (Hsame : output_tsv supported_request (RRange sample_envelope)
                    200 None
                  = output_tsv supported_request (RRange string_envelope)
                      200 None) by (vm_compute; reflexivity).
  split; [reflexivity|]. split; [exact sample_records_clean|].
  split; [exact string_records_clean|]. split; [exact Hsame|].
  exact (tsv_body_determines_fields supported_request
           sample_envelope string_envelope 200 None
           eq_refl sample_records_clean string_records_clean Hsame).
Defined.

(** ** What [output_tsv] answers *)


Lemma GetInteractions_responses int_of_str rd user_id req t resp t' :
  GetInteractions_get int_of_str rd user_id req t = (Ok resp, t') ->
  (exists m, resp = RUsage m) \/ (exists e, resp = RRange e).
Proof.
  intros H. unfold GetInteractions_get in H. unfold_monad.
  split_paths H; inversion H; subst; eauto.
Qed.

(** X4. The answer of the range handler rendered on its own endpoint: a
    served request gives the tabular body of the envelope's values, a
    rejected request makes [output_tsv] raise [KeyError], so a rejection
    payload is never delivered in tabular form. *)
Theorem range_answer_rendered :
  forall int_of_str rd user_id req t resp t' code headers,
    GetInteractions_get int_of_str rd user_id req t = (Ok resp, t') ->
    endpoint req = "values" ->
    (exists m, resp = RUsage m
               /\ output_tsv req resp code headers
                  = Raise (KeyError "values"))
    \/ (exists e, resp = RRange e
                  /\ output_tsv req resp code headers
                     = Ok (Some {| body := tsv_body (values e);
                                   http_code := code;
                                   http_headers := default [] headers |})).
Proof.
  intros int_of_str rd user_id req t resp t' code headers Hrun Hep.
  destruct (GetInteractions_responses _ _ _ _ _ _ _ Hrun)
    as [[m ->] | [e ->]]; [left | right]; eexists; (split; [reflexivity|]);
    unfold output_tsv;
    (destruct (decide (endpoint req = "values")); [reflexivity | done]).
Qed.

Lemma range_answer_rendered_witness :
  endpoint file_only_request = "values"
  /\ endpoint supported_request = "values"
  /\ (exists m,
         fst (GetInteractions_get int_of_decimal sample_reader
                (Some sample_user) file_only_request []) = Ok (RUsage m)
         /\ output_tsv file_only_request (RUsage m) 400 None
            = Raise (KeyError "values"))
  /\ (exists e,
         fst (GetInteractions_get int_of_decimal sample_reader
                (Some sample_user) supported_request []) = Ok (RRange e)
         /\ output_tsv supported_request (RRange e) 200 None
            = Ok (Some {| body := tsv_body sample_records;
                          http_code := 200; http_headers := [] |})).
Proof.
  split; [reflexivity|]. split; [reflexivity|]. split.
  - destruct (GetInteractions_get int_of_decimal sample_reader
                (Some sample_user) file_only_request [])
      as [[resp|ex] t'] eqn:Hrun; [|vm_compute in Hrun; discriminate Hrun].
    destruct (range_answer_rendered _ _ _ _ _ _ _ 400 None Hrun eq_refl)
      as [(m & -> & Hout) | (e & -> & _)].
    + exists m. split; [reflexivity | exact Hout].
    + vm_compute in Hrun. discriminate Hrun.
  - destruct (GetInteractions_get int_of_decimal sample_reader
                (Some sample_user) supported_request [])
      as [[resp|ex] t'] eqn:Hrun; [|vm_compute in Hrun; discriminate Hrun].
    destruct (range_answer_rendered _ _ _ _ _ _ _ 200 None Hrun eq_refl)
      as [(m & -> & _) | (e & -> & Hout)].
    + vm_compute in Hrun. discriminate Hrun.
    + exists e. split; [reflexivity|]. rewrite Hout.
      vm_compute in Hrun. injection Hrun as <- _. reflexivity.
Defined.

(** ** The counting tests on [params] *)

Lemma py_sum_all (l : list bool) :
  Forall (fun b => b = true) l -> py_sum l = length l.
Proof.
  induction 1 as [|b l -> _ IH]; [reflexivity|].
  rewrite py_sum_cons, IH. reflexivity.
Qed.

(** X5. The two counting tests of the handlers decide what their
    comments say: [sum([x is None ...]) == len(params)] holds exactly when
    every entry of [params] is [None], and
    [sum([x is not None ...]) != len(params)] exactly when some entry is
    [None]. *)
Theorem counting_tests_meaning :
  forall params : list pyobj,
    ((py_sum (map is_None params) =? length params)%nat = true
     <-> Forall (fun x => is_None x = true) params)
    /\ (negb (py_sum (map (fun x => negb (is_None x)) params)
              =? length params)%nat = true
        <-> Exists (fun x => is_None x = true) params).
Proof.
  intros params. split; split.
  - intros H. apply Nat.eqb_eq in H.
    rewrite <- (length_map is_None) in H.
    apply py_sum_full in H. now rewrite Forall_map in H.
  - intros H. apply Nat.eqb_eq.
    rewrite <- (length_map is_None params).
    apply py_sum_all. now rewrite Forall_map.
  - intros H. apply negb_true_iff in H.
    destruct (decide (Exists (fun x => is_None x = true) params))
      as [He|Hne]; [exact He|].
    exfalso. apply Nat.eqb_neq in H. apply H.
    rewrite <- (length_map (fun x => negb (is_None x)) params).
    apply py_sum_all. rewrite Forall_map. apply Forall_forall.
    intros x Hx. simpl. destruct (is_None x) eqn:Ex; [|reflexivity].
    exfalso. apply Hne. apply Exists_exists. eauto.
  - intros H. apply negb_true_iff, Nat.eqb_neq. intros Heq.
    rewrite <- (length_map (fun x => negb (is_None x))) in Heq.
    apply py_sum_full in Heq. rewrite Forall_map in Heq.
    apply Exists_exists in H as (x & Hx & Hn).
    rewrite Forall_forall in Heq. specialize (Heq x Hx). simpl in Heq.
    rewrite Hn in Heq. discriminate Heq.
Qed.

(** With the user dictionary at its head, [params] is never all [None]. *)
Lemma discovery_dead (g : gmap string value) (l : list pyobj) :
  (py_sum (map is_None (ODict g :: l)) =? length (ODict g :: l))%nat = false.
Proof.
  apply Nat.eqb_neq. cbn [map is_None length]. rewrite py_sum_cons.
  pose proof (py_sum_le (map is_None l)) as Hle.
  rewrite length_map in Hle. lia.
Qed.

(** ** The rejections of the three handlers *)

Ltac classify_rejection :=
  cbn [rejection_of];
  first
    [ (* unauthenticated *)
      split; [reflexivity|]; split; reflexivity
    | (* authenticated *)
      split; [reflexivity|]; split;
      [ eexists; split; [reflexivity|];
        unfold rejection_errors; repeat constructor
      | rewrite help_usage_provided by apply insert_non_empty;
        discriminate ] ].

(** X6. Every rejection payload of the three handlers is of one of two
    kinds.  For an unauthenticated caller it is the 403 [Forbidden]
    payload, without [provided_parameters].  For an authenticated caller
    its status is 400, its error is [MissingParameters],
    [IncorrectParameterType] or [Resolution Not Available], and it always
    carries [provided_parameters], even when nothing was supplied.  No
    handler ever answers with a payload of status 200, and the details
    handler never returns its [{"usage": "test"}] placeholder. *)
Theorem rejections_classified :
  (forall rd user_id req t m t',
      GetDetails_get rd user_id req t = (Ok (RUsage m), t') ->
      rejection_of user_id m)
  /\ (forall int_of_str rd user_id req t m t',
         GetInteractions_get int_of_str rd user_id req t
         = (Ok (RUsage m), t') ->
         rejection_of user_id m)
  /\ (forall int_of_str rd user_id req t m t',
         GetValue_get int_of_str rd user_id req t = (Ok (RUsage m), t') ->
         rejection_of user_id m)
  /\ (forall rd user_id req t t',
         GetDetails_get rd user_id req t <> (Ok RUsageTest, t')).
Proof.
  split; [|split; [|split]].
  - intros rd user_id req t m t' H. unfold GetDetails_get in H.
    destruct user_id as [g|]; [rewrite discovery_dead in H|];
      unfold_monad; split_paths H; inversion H; subst; classify_rejection.
  - intros int_of_str rd user_id req t m t' H.
    unfold GetInteractions_get in H.
    destruct user_id as [g|]; [rewrite discovery_dead in H|];
      unfold_monad; split_paths H; inversion H; subst; classify_rejection.
  - intros int_of_str rd user_id req t m t' H. unfold GetValue_get in H.
    destruct user_id as [g|]; [rewrite discovery_dead in H|];
      unfold_monad; split_paths H; inversion H; subst; classify_rejection.
  - intros rd user_id req t t' H. unfold GetDetails_get in H.
    destruct user_id as [g|]; [rewrite discovery_dead in H|];
      unfold_monad; split_paths H; inversion H.
Qed.

Lemma rejections_classified_witness :
  (exists m,
      GetDetails_get sample_reader (Some sample_user) empty_request []
      = (Ok (RUsage m), [])
      /\ rejection_of (Some sample_user) m)
  /\ (exists m,
         GetInteractions_get int_of_decimal sample_reader None
           supported_request [] = (Ok (RUsage m), [])
         /\ rejection_of None m)
  /\ (exists m,
         GetValue_get int_of_decimal sample_reader (Some sample_user)
           bad_pos_request [] = (Ok (RUsage m), [])
         /\ rejection_of (Some sample_user) m)
  /\ GetDetails_get sample_reader (Some sample_user) empty_request []
     <> (Ok RUsageTest, []).
Proof.
  destruct rejections_classified as (Td & Tr & Tp & Tn).
  split; [|split; [|split]].
  - eexists.
    assert (Hrun : GetDetails_get sample_reader (Some sample_user)
                     empty_request [] = (Ok (RUsage _), []))
      by (vm_compute; reflexivity).
    split; [exact Hrun | exact (Td _ _ _ _ _ _ Hrun)].
  - eexists.
    assert (Hrun : GetInteractions_get int_of_decimal sample_reader None
                     supported_request [] = (Ok (RUsage _), []))
      by reflexivity.
    split; [exact Hrun | exact (Tr _ _ _ _ _ _ _ Hrun)].
  - eexists.
    assert (Hrun : GetValue_get int_of_decimal sample_reader
                     (Some sample_user) bad_pos_request []
                   = (Ok (RUsage _), []))
      by (vm_compute; reflexivity).
    split; [exact Hrun | exact (Tp _ _ _ _ _ _ _ Hrun)].
  - apply Tn.
Defined.

(** ** The reader calls of a request *)

(** X7. The details and the point handler reject a request before they
    touch the reader: a rejection payload comes with the trace of reader
    calls unchanged, so no handle is open when they reject. *)
Theorem details_and_point_reject_before_reader :
  (forall rd user_id req t m t',
      GetDetails_get rd user_id req t = (Ok (RUsage m), t') -> t' = t)
  /\ (forall int_of_str rd user_id req t m t',
         GetValue_get int_of_str rd user_id req t = (Ok (RUsage m), t') ->
         t' = t).
Proof.
  split.
  - intros rd user_id req t m t' H. unfold GetDetails_get in H.
    unfold_monad. split_paths H; inversion H; reflexivity.
  - intros int_of_str rd user_id req t m t' H. unfold GetValue_get in H.
    unfold_monad. split_paths H; inversion H; reflexivity.
Qed.

Lemma details_and_point_reject_before_reader_witness :
  (exists m t',
      GetDetails_get sample_reader (Some sample_user) empty_request []
      = (Ok (RUsage m), t') /\ t' = [])
  /\ (exists m t',
         GetValue_get int_of_decimal sample_reader (Some sample_user)
           bad_pos_request [] = (Ok (RUsage m), t') /\ t' = []).
Proof.
  destruct details_and_point_reject_before_reader as (Td & Tp).
  split; eexists; eexists.
  - assert (Hrun : GetDetails_get sample_reader (Some sample_user)
                     empty_request [] = (Ok (RUsage _), _))
      by (vm_compute; reflexivity).
    split; [exact Hrun | exact (Td _ _ _ _ _ _ Hrun)].
  - assert (Hrun : GetValue_get int_of_decimal sample_reader
                     (Some sample_user) bad_pos_request []
                   = (Ok (RUsage _), _))
      by (vm_compute; reflexivity).
    split; [exact Hrun | exact (Tp _ _ _ _ _ _ _ Hrun)].
Defined.

(** X8. Whatever the outcome of a request (payload, envelope or
    exception), each handler opens at most one handle and never closes
    more handles than it opened. *)
Theorem at_most_one_handle :
  (forall rd user_id req r t',
      GetDetails_get rd user_id req [] = (r, t') ->
      (opened t' <= 1)%nat /\ (closed t' <= opened t')%nat)
  /\ (forall int_of_str rd user_id req r t',
         GetInteractions_get int_of_str rd user_id req [] = (r, t') ->
         (opened t' <= 1)%nat /\ (closed t' <= opened t')%nat)
  /\ (forall int_of_str rd user_id req r t',
         GetValue_get int_of_str rd user_id req [] = (r, t') ->
         (opened t' <= 1)%nat /\ (closed t' <= opened t')%nat).
Proof.
  split; [|split].
  - intros rd user_id req r t' H. unfold GetDetails_get in H.
    unfold_monad. split_paths H; inversion H; subst; simpl;
      unfold opened, closed; simpl; lia.
  - intros int_of_str rd user_id req r t' H.
    unfold GetInteractions_get in H.
    unfold_monad. split_paths H; inversion H; subst; simpl;
      unfold opened, closed; simpl; lia.
  - intros int_of_str rd user_id req r t' H. unfold GetValue_get in H.
    unfold_monad. split_paths H; inversion H; subst; simpl;
      unfold opened, closed; simpl; lia.
Qed.

Lemma at_most_one_handle_witness :
  let d := GetDetails_get sample_reader (Some sample_user)
             details_request [] in
  let r := GetInteractions_get int_of_decimal sample_reader
             (Some sample_user) one_bound_request [] in
  let p := GetValue_get int_of_decimal failing_reader (Some sample_user)
             point_request [] in
  ((opened (snd d) <= 1)%nat /\ (closed (snd d) <= opened (snd d))%nat)
  /\ ((opened (snd r) <= 1)%nat /\ (closed (snd r) <= opened (snd r))%nat)
  /\ ((opened (snd p) <= 1)%nat /\ (closed (snd p) <= opened (snd p))%nat).
Proof.
  intros d r p.
  destruct at_most_one_handle as (Td & Tr & Tp).
  split; [|split].
  - exact (Td _ _ _ _ _ (surjective_pairing d)).
  - exact (Tr _ _ _ _ _ _ (surjective_pairing r)).
  - exact (Tp _ _ _ _ _ _ (surjective_pairing p)).
Defined.

(** X9. Each handler that answers with its result (the details listing,
    the range envelope, the point value) has opened exactly one handle and
    closed it exactly once, the [close] being its last call on the
    reader. *)
Theorem success_closes_last :
  (forall rd user_id req s p c r t',
      GetDetails_get rd user_id req [] = (Ok (RDetails s p c r), t') ->
      opened t' = 1%nat /\ closed t' = 1%nat /\ last t' = Some EClose)
  /\ (forall int_of_str rd user_id req e t',
         GetInteractions_get int_of_str rd user_id req []
         = (Ok (RRange e), t') ->
         opened t' = 1%nat /\ closed t' = 1%nat /\ last t' = Some EClose)
  /\ (forall int_of_str rd user_id req e t',
         GetValue_get int_of_str rd user_id req [] = (Ok (RValue e), t') ->
         opened t' = 1%nat /\ closed t' = 1%nat /\ last t' = Some EClose).
Proof.
  split; [|split].
  - intros rd user_id req s p c r t' H. unfold GetDetails_get in H.
    unfold_monad. split_paths H; inversion H; subst; repeat split.
  - intros int_of_str rd user_id req e t' H.
    unfold GetInteractions_get in H.
    unfold_monad. split_paths H; inversion H; subst; repeat split.
  - intros int_of_str rd user_id req e t' H. unfold GetValue_get in H.
    unfold_monad. split_paths H; inversion H; subst; repeat split.
Qed.

Lemma success_closes_last_witness :
  (exists s p c r t',
      GetDetails_get sample_reader (Some sample_user) details_request []
      = (Ok (RDetails s p c r), t')
      /\ opened t' = 1%nat /\ closed t' = 1%nat /\ last t' = Some EClose)
  /\ (exists e t',
         GetInteractions_get int_of_decimal sample_reader
           (Some sample_user) full_limit_request [] = (Ok (RRange e), t')
         /\ opened t' = 1%nat /\ closed t' = 1%nat
         /\ last t' = Some EClose)
  /\ (exists e t',
         GetValue_get int_of_decimal sample_reader (Some sample_user)
           point_request [] = (Ok (RValue e), t')
         /\ opened t' = 1%nat /\ closed t' = 1%nat
         /\ last t' = Some EClose).
Proof.
  destruct success_closes_last as (Td & Tr & Tp).
  split; [|split].
  - do 5 eexists.
    assert (Hrun : GetDetails_get sample_reader (Some sample_user)
                     details_request [] = (Ok (RDetails _ _ _ _), _))
      by (vm_compute; reflexivity).
    split; [exact Hrun | exact (Td _ _ _ _ _ _ _ _ Hrun)].
  - do 2 eexists.
    assert (Hrun : GetInteractions_get int_of_decimal sample_reader
                     (Some sample_user) full_limit_request []
                   = (Ok (RRange _), _))
      by (vm_compute; reflexivity).
    split; [exact Hrun | exact (Tr _ _ _ _ _ _ Hrun)].
  - do 2 eexists.
    assert (Hrun : GetValue_get int_of_decimal sample_reader
                     (Some sample_user) point_request []
                   = (Ok (RValue _), _))
      by (vm_compute; reflexivity).
    split; [exact Hrun | exact (Tp _ _ _ _ _ _ Hrun)].
Defined.

(** ** Served requests *)

(** X10. The details handler, for an authenticated caller who names a
    file: it opens the handle without a resolution, asks for the details,
    closes the handle and returns the reader's chromosome listing and
    resolution list unchanged. *)
Theorem GetDetails_served :
  forall rd user req t uid f h d,
    user !! "user_id" = Some uid ->
    args req !! "file_id" = Some f ->
    adjacency rd uid (VStr f) None = Ok h ->
    get_details rd h = Ok d ->
    close rd h = Ok tt ->
    GetDetails_get rd (Some user) req t
    = (Ok (RDetails (base_url req) (url_root req +:+ "mug/api/adjacency")
             (chromosomes d) (resolutions d)),
       t ++ [EOpen uid (VStr f) None; EGetDetails; EClose]).
Proof.
  intros rd user req t uid f h d Hu Hf Hopen Hdet Hclose.
  unfold GetDetails_get, args_get. rewrite Hf.
  cbn [py_sum map fold_left is_None negb length Nat.eqb].
  unfold_monad. rewrite Hu, Hopen, Hdet, Hclose.
  now rewrite <- !app_assoc.
Qed.

Lemma GetDetails_served_witness :
  sample_user !! "user_id" = Some (VStr "test_user")
  /\ args details_request !! "file_id" = Some "test_file"
  /\ GetDetails_get sample_reader (Some sample_user) details_request []
     = (Ok (RDetails (base_url details_request)
              (url_root details_request +:+ "mug/api/adjacency")
              (chromosomes sample_details) (resolutions sample_details)),
        [EOpen (VStr "test_user") (VStr "test_file") None; EGetDetails;
         EClose]).
Proof.
  split; [reflexivity|]. split; [reflexivity|].
  exact (GetDetails_served sample_reader sample_user details_request []
           (VStr "test_user") "test_file" tt sample_details
           eq_refl eq_refl eq_refl eq_refl eq_refl).
Defined.

(** X11. The point handler, for an authenticated caller whose four
    parameters are present and whose three numbers parse: it opens the
    handle at the requested resolution, reads the value at (x, y), looks
    up the chromosome of x and the chromosome of y separately, closes the
    handle, and answers with both chromosomes, the coerced numbers and the
    value as an integer. *)
Theorem GetValue_served :
  forall int_of_str rd user req t uid f r x y zr zx zy h v ca cb z,
    user !! "user_id" = Some uid ->
    args req !! "file_id" = Some f ->
    args req !! "res" = Some r ->
    args req !! "pos_x" = Some x ->
    args req !! "pos_y" = Some y ->
    int_of_str x = Some zx ->
    int_of_str y = Some zy ->
    int_of_str r = Some zr ->
    adjacency rd uid (VStr f) (Some (VInt zr)) = Ok h ->
    get_value rd h (VInt zx) (VInt zy) = Ok v ->
    get_chromosome_from_array_index rd h (VInt zx) = Ok ca ->
    get_chromosome_from_array_index rd h (VInt zy) = Ok cb ->
    close rd h = Ok tt ->
    py_int int_of_str v = Ok (VInt z) ->
    exists e,
      GetValue_get int_of_str rd (Some user) req t
      = (Ok (RValue e),
         t ++ [EOpen uid (VStr f) (Some (VInt zr));
               EGetValue (VInt zx) (VInt zy);
               EGetChromosome (VInt zx); EGetChromosome (VInt zy);
               EClose])
      /\ val_chrA e = ca /\ val_chrB e = cb
      /\ val_resolution e = VInt zr
      /\ val_pos_x e = VInt zx /\ val_pos_y e = VInt zy
      /\ val_value e = VInt z
      /\ val_self e
         = (((((((url_root req +:+ "mug/api/adjacency/getValue?file_id=")
                 +:+ f) +:+ "&res=") +:+ pretty zr) +:+ "&pos_x=")
              +:+ pretty zx) +:+ "&pos_y=") +:+ pretty zy.
Proof.
  intros int_of_str rd user req t uid f r x y zr zx zy h v ca cb z
         Hu Hf Hr Hx Hy Hzx Hzy Hzr Hopen Hval Hca Hcb Hclose Hint.
  unfold GetValue_get, args_get. rewrite Hf, Hr, Hx, Hy.
  cbn [py_sum map fold_left is_None negb length Nat.eqb py_int].
  rewrite Hzx, Hzy, Hzr. unfold_monad.
  rewrite Hu, Hopen, Hval, Hca, Hcb, Hclose, Hint.
  eexists. split; [rewrite <- !app_assoc; reflexivity|].
  repeat split.
Qed.

Lemma GetValue_served_witness :
  exists e,
    GetValue_get int_of_decimal sample_reader (Some sample_user)
      point_request []
    = (Ok (RValue e),
       [EOpen (VStr "test_user") (VStr "test_file") (Some (VInt 1000));
        EGetValue (VInt 10) (VInt 20);
        EGetChromosome (VInt 10); EGetChromosome (VInt 20); EClose])
    /\ val_chrA e = VStr "chr1" /\ val_chrB e = VStr "chr2"
    /\ val_resolution e = VInt 1000
    /\ val_pos_x e = VInt 10 /\ val_pos_y e = VInt 20
    /\ val_value e = VInt 3
    /\ val_self e
       = (((((((url_root point_request
                +:+ "mug/api/adjacency/getValue?file_id=")
               +:+ "test_file") +:+ "&res=") +:+ pretty 1000) +:+ "&pos_x=")
            +:+ pretty 10) +:+ "&pos_y=") +:+ pretty 20.
Proof.
  exact (GetValue_served int_of_decimal sample_reader sample_user
           point_request [] (VStr "test_user") "test_file" "1000" "10" "20"
           1000 10 20 tt (VInt 3) (VStr "chr1") (VStr "chr2") 3
           eq_refl eq_refl eq_refl eq_refl eq_refl eq_refl eq_refl eq_refl
           eq_refl eq_refl eq_refl eq_refl eq_refl eq_refl).
Defined.

(** X12. The range handler with the whole limiting triple: when
    [limit_chr], [limit_start] and [limit_end] are all supplied and both
    bounds parse, the reader is asked for the range with the coerced
    bounds, the handle is closed, and the envelope echoes the limiting
    chromosome and the coerced bounds next to the reader's records and
    log. *)
Theorem GetInteractions_served_with_limits :
  forall int_of_str rd user req t uid f c zs ze zr h d lc ls le zl zle data,
    user !! "user_id" = Some uid ->
    range_primary_valid int_of_str req f c zs ze zr ->
    adjacency rd uid (VStr f) (Some (VInt zr)) = Ok h ->
    get_details rd h = Ok d ->
    VInt zr ∈ resolutions d ->
    args req !! "limit_chr" = Some lc ->
    args req !! "limit_start" = Some ls ->
    args req !! "limit_end" = Some le ->
    int_of_str ls = Some zl ->
    int_of_str le = Some zle ->
    get_range rd h (VStr c) (VInt zs) (VInt ze)
      (VStr lc) (VInt zl) (VInt zle)
      (url_root req +:+ "mug/api/adjacency/getValue")
      (args_get req "no_links") = Ok data ->
    close rd h = Ok tt ->
    GetInteractions_get int_of_str rd (Some user) req t
    = (Ok (RRange
             {| env_self := url req;
                env_parent := url_root req +:+ "mug/api/adjacency";
                env_resolution := VInt zr;
                env_chr := VStr c;
                env_start := VInt zs;
                env_end := VInt ze;
                env_limit_chr := VStr lc;
                env_limit_start := VInt zl;
                env_limit_end := VInt zle;
                interaction_count := Z.of_nat (length (results data));
                values := results data;
                env_log := log data |}),
       t ++ [EOpen uid (VStr f) (Some (VInt zr)); EGetDetails;
             EGetRange (VStr c) (VInt zs) (VInt ze)
               (VStr lc) (VInt zl) (VInt zle);
             EClose]).
Proof.
  intros int_of_str rd user req t uid f c zs ze zr h d lc ls le zl zle data
         Hu (Hf & Hc & (ss & Hs & Hzs) & (se & He & Hze) & (sr & Hr & Hzr))
         Hopen Hdet Hin Hlc Hls Hle Hzl Hzle Hrange Hclose.
  unfold args_get in Hrange.
  unfold GetInteractions_get, args_get.
  rewrite Hf, Hc, Hs, He, Hr, Hlc, Hls, Hle.
  cbn [py_sum map fold_left is_None negb length Nat.eqb py_int].
  rewrite Hzs, Hze, Hzr. unfold_monad.
  rewrite Hu, Hopen, Hdet. unfold py_in.
  rewrite bool_decide_eq_true_2 by assumption.
  cbn [negb orb is_None py_int]. rewrite Hzl, Hzle, Hrange, Hclose.
  now rewrite <- !app_assoc.
Qed.

Lemma full_limit_request_valid :
  range_primary_valid int_of_decimal full_limit_request
    "test_file" "1" 100 200 10.
Proof. unfold range_primary_valid. solve_valid. Defined.

Lemma GetInteractions_served_with_limits_witness :
  range_primary_valid int_of_decimal full_limit_request
    "test_file" "1" 100 200 10
  /\ (VInt 10 ∈ resolutions sample_details)
  /\ exists e,
       GetInteractions_get int_of_decimal sample_reader (Some sample_user)
         full_limit_request []
       = (Ok (RRange e),
          [EOpen (VStr "test_user") (VStr "test_file") (Some (VInt 10));
           EGetDetails;
           EGetRange (VStr "1") (VInt 100) (VInt 200)
             (VStr "2") (VInt 150) (VInt 180);
           EClose])
       /\ env_limit_chr e = VStr "2"
       /\ env_limit_start e = VInt 150
       /\ env_limit_end e = VInt 180
       /\ values e = sample_records.
Proof.
  split; [exact full_limit_request_valid|].
  split; [exact resolution_10_supported|].
  eexists. split.
  - exact (GetInteractions_served_with_limits int_of_decimal sample_reader
             sample_user full_limit_request [] (VStr "test_user")
             "test_file" "1" 100 200 10 tt sample_details
             "2" "150" "180" 150 180
             {| results := sample_records; log := [] |}
             eq_refl full_limit_request_valid eq_refl eq_refl
             resolution_10_supported eq_refl eq_refl eq_refl eq_refl eq_refl
             eq_refl eq_refl).
  - repeat split.
Defined.

(** ** Requests that end in an exception *)

(** X13. A limiting chromosome with only one of its two bounds is not
    rejected with a payload: the handler applies [int] to the missing
    bound, and the request ends in [TypeError], after the handle was
    opened and the details were read, with the handle left open. *)
Theorem one_limit_bound_raises_TypeError :
  forall int_of_str rd user req t uid f c zs ze zr h d lc,
    user !! "user_id" = Some uid ->
    range_primary_valid int_of_str req f c zs ze zr ->
    adjacency rd uid (VStr f) (Some (VInt zr)) = Ok h ->
    get_details rd h = Ok d ->
    VInt zr ∈ resolutions d ->
    args req !! "limit_chr" = Some lc ->
    (exists ls zl, args req !! "limit_start" = Some ls
                   /\ int_of_str ls = Some zl /\ absent req "limit_end")
    \/ (absent req "limit_start" /\ present req "limit_end") ->
    GetInteractions_get int_of_str rd (Some user) req t
    = (Raise TypeError,
       t ++ [EOpen uid (VStr f) (Some (VInt zr)); EGetDetails]).
Proof.
  intros int_of_str rd user req t uid f c zs ze zr h d lc
         Hu (Hf & Hc & (ss & Hs & Hzs) & (se & He & Hze) & (sr & Hr & Hzr))
         Hopen Hdet Hin Hlc Hone.
  unfold GetInteractions_get, args_get.
  rewrite Hf, Hc, Hs, He, Hr, Hlc.
  cbn [py_sum map fold_left is_None negb length Nat.eqb py_int].
  rewrite Hzs, Hze, Hzr. unfold_monad.
  rewrite Hu, Hopen, Hdet. unfold py_in.
  rewrite bool_decide_eq_true_2 by assumption.
  cbn [negb]. rewrite <- app_assoc. cbn [app].
  destruct Hone as [(ls & zl & Hls & Hzl & Hle) | (Hls & [le Hle])].
  - unfold absent in Hle. rewrite Hls, Hle.
    cbn [negb orb is_None py_int]. rewrite Hzl. reflexivity.
  - unfold absent in Hls. rewrite Hls, Hle. reflexivity.
Qed.

Lemma one_bound_request_valid :
  range_primary_valid int_of_decimal one_bound_request
    "test_file" "1" 100 200 10.
Proof. unfold range_primary_valid. solve_valid. Defined.

Lemma one_limit_bound_raises_TypeError_witness :
  range_primary_valid int_of_decimal one_bound_request
    "test_file" "1" 100 200 10
  /\ args one_bound_request !! "limit_chr" = Some "2"
  /\ args one_bound_request !! "limit_start" = Some "150"
  /\ absent one_bound_request "limit_end"
  /\ GetInteractions_get int_of_decimal sample_reader (Some sample_user)
       one_bound_request []
     = (Raise TypeError,
        [EOpen (VStr "test_user") (VStr "test_file") (Some (VInt 10));
         EGetDetails]).
Proof.
  split; [exact one_bound_request_valid|].
  split; [reflexivity|]. split; [reflexivity|]. split; [reflexivity|].
  exact (one_limit_bound_raises_TypeError int_of_decimal sample_reader
           sample_user one_bound_request [] (VStr "test_user")
           "test_file" "1" 100 200 10 tt sample_details "2"
           eq_refl one_bound_request_valid eq_refl eq_refl
           resolution_10_supported eq_refl
           (or_introl (ex_intro _ "150" (ex_intro _ 150
              (conj eq_refl (conj eq_refl eq_refl)))))).
Defined.

(** X14. A failure of the reader is not caught: the exception raised by
    [get_details] (details handler), [get_range] (range handler) or
    [get_value] (point handler) ends the request as it is, and the handle
    that was opened for the call is not closed. *)
Theorem reader_failure_propagates :
  (forall rd user req t uid f h ex,
      user !! "user_id" = Some uid ->
      args req !! "file_id" = Some f ->
      adjacency rd uid (VStr f) None = Ok h ->
      get_details rd h = Raise ex ->
      GetDetails_get rd (Some user) req t
      = (Raise ex, t ++ [EOpen uid (VStr f) None; EGetDetails]))
  /\ (forall int_of_str rd user req t uid f c zs ze zr h d ex,
         user !! "user_id" = Some uid ->
         range_primary_valid int_of_str req f c zs ze zr ->
         adjacency rd uid (VStr f) (Some (VInt zr)) = Ok h ->
         get_details rd h = Ok d ->
         VInt zr ∈ resolutions d ->
         absent req "limit_start" ->
         absent req "limit_end" ->
         get_range rd h (VStr c) (VInt zs) (VInt ze)
           (args_get req "limit_chr") VNone VNone
           (url_root req +:+ "mug/api/adjacency/getValue")
           (args_get req "no_links") = Raise ex ->
         GetInteractions_get int_of_str rd (Some user) req t
         = (Raise ex,
            t ++ [EOpen uid (VStr f) (Some (VInt zr)); EGetDetails;
                  EGetRange (VStr c) (VInt zs) (VInt ze)
                    (args_get req "limit_chr") VNone VNone]))
  /\ (forall int_of_str rd user req t uid f r x y zr zx zy h ex,
         user !! "user_id" = Some uid ->
         args req !! "file_id" = Some f ->
         args req !! "res" = Some r ->
         args req !! "pos_x" = Some x ->
         args req !! "pos_y" = Some y ->
         int_of_str x = Some zx ->
         int_of_str y = Some zy ->
         int_of_str r = Some zr ->
         adjacency rd uid (VStr f) (Some (VInt zr)) = Ok h ->
         get_value rd h (VInt zx) (VInt zy) = Raise ex ->
         GetValue_get int_of_str rd (Some user) req t
         = (Raise ex,
            t ++ [EOpen uid (VStr f) (Some (VInt zr));
                  EGetValue (VInt zx) (VInt zy)])).
Proof.
  split; [|split].
  - intros rd user req t uid f h ex Hu Hf Hopen Hdet.
    unfold GetDetails_get, args_get. rewrite Hf.
    cbn [py_sum map fold_left is_None negb length Nat.eqb].
    unfold_monad. rewrite Hu, Hopen, Hdet.
    now rewrite <- !app_assoc.
  - intros int_of_str rd user req t uid f c zs ze zr h d ex
           Hu (Hf & Hc & (ss & Hs & Hzs) & (se & He & Hze) & (sr & Hr & Hzr))
           Hopen Hdet Hin Hls Hle Hrange.
    unfold args_get in Hrange. unfold absent in Hls, Hle.
    unfold GetInteractions_get, args_get.
    rewrite Hf, Hc, Hs, He, Hr, Hls, Hle.
    cbn [py_sum map fold_left is_None negb length Nat.eqb py_int].
    rewrite Hzs, Hze, Hzr. unfold_monad.
    rewrite Hu, Hopen, Hdet. unfold py_in.
    rewrite bool_decide_eq_true_2 by assumption.
    cbn [negb orb is_None]. rewrite Hrange.
    now rewrite <- !app_assoc.
  - intros int_of_str rd user req t uid f r x y zr zx zy h ex
           Hu Hf Hr Hx Hy Hzx Hzy Hzr Hopen Hval.
    unfold GetValue_get, args_get. rewrite Hf, Hr, Hx, Hy.
    cbn [py_sum map fold_left is_None negb length Nat.eqb py_int].
    rewrite Hzx, Hzy, Hzr. unfold_monad.
    rewrite Hu, Hopen, Hval.
    now rewrite <- !app_assoc.
Qed.

Lemma supported_request_valid :
  range_primary_valid int_of_decimal supported_request
    "test_file" "1" 100 200 10.
Proof. unfold range_primary_valid. solve_valid. Defined.

Lemma reader_failure_propagates_witness :
  GetDetails_get unreadable_reader (Some sample_user) details_request []
  = (Raise (ReaderError "details unreadable"),
     [EOpen (VStr "test_user") (VStr "test_file") None; EGetDetails])
  /\ GetInteractions_get int_of_decimal failing_reader (Some sample_user)
       supported_request []
     = (Raise (ReaderError "range lookup failed"),
        [EOpen (VStr "test_user") (VStr "test_file") (Some (VInt 10));
         EGetDetails;
         EGetRange (VStr "1") (VInt 100) (VInt 200) VNone VNone VNone])
  /\ GetValue_get int_of_decimal failing_reader (Some sample_user)
       point_request []
     = (Raise (ReaderError "point lookup failed"),
        [EOpen (VStr "test_user") (VStr "test_file") (Some (VInt 1000));
         EGetValue (VInt 10) (VInt 20)]).
Proof.
  destruct reader_failure_propagates as (Td & Tr & Tp).
  split; [|split].
  - exact (Td unreadable_reader sample_user details_request []
             (VStr "test_user") "test_file" tt
             (ReaderError "details unreadable")
             eq_refl eq_refl eq_refl eq_refl).
  - exact (Tr int_of_decimal failing_reader sample_user supported_request []
             (VStr "test_user") "test_file" "1" 100 200 10 tt sample_details
             (ReaderError "range lookup failed")
             eq_refl supported_request_valid eq_refl eq_refl
             resolution_10_supported eq_refl eq_refl eq_refl).
  - exact (Tp int_of_decimal failing_reader sample_user point_request []
             (VStr "test_user") "test_file" "1000" "10" "20" 1000 10 20 tt
             (ReaderError "point lookup failed")
             eq_refl eq_refl eq_refl eq_refl eq_refl eq_refl eq_refl eq_refl
             eq_refl eq_refl).
Defined.

(** ** What a range envelope tells about its request *)

Lemma args_get_is_None req k :
  is_None (OVal (args_get req k)) = true -> absent req k.
Proof.
  unfold args_get, absent. destruct (args req !! k); [discriminate | auto].
Qed.

Lemma GetInteractions_served_inv int_of_str rd user_id req t e t' :
  GetInteractions_get int_of_str rd user_id req t = (Ok (RRange e), t') ->
  exists f c zs ze zr,
    range_primary_valid int_of_str req f c zs ze zr
    /\ env_self e = url req
    /\ env_chr e = VStr c /\ env_start e = VInt zs /\ env_end e = VInt ze
    /\ env_resolution e = VInt zr
    /\ env_limit_chr e = args_get req "limit_chr"
    /\ ((absent req "limit_start" /\ absent req "limit_end"
         /\ env_limit_start e = VNone /\ env_limit_end e = VNone)
        \/ (exists lc ls le zl zle,
               args req !! "limit_chr" = Some lc
               /\ args req !! "limit_start" = Some ls
               /\ args req !! "limit_end" = Some le
               /\ int_of_str ls = Some zl /\ int_of_str le = Some zle
               /\ env_limit_start e = VInt zl
               /\ env_limit_end e = VInt zle))
    /\ exists uid h d data,
         adjacency rd uid (VStr f) (Some (VInt zr)) = Ok h
         /\ get_details rd h = Ok d
         /\ VInt zr ∈ resolutions d
         /\ get_range rd h (env_chr e) (env_start e) (env_end e)
              (env_limit_chr e) (env_limit_start e) (env_limit_end e)
              (url_root req +:+ "mug/api/adjacency/getValue")
              (args_get req "no_links") = Ok data
         /\ values e = results data
         /\ env_log e = log data
         /\ t' = t ++ [EOpen uid (VStr f) (Some (VInt zr)); EGetDetails;
                       EGetRange (env_chr e) (env_start e) (env_end e)
                         (env_limit_chr e) (env_limit_start e)
                         (env_limit_end e);
                       EClose].
Proof.
  intros H. unfold GetInteractions_get in H. unfold_monad.
  split_paths H; inversion H; subst; clear H.
  all: match goal with
       | E : negb (py_sum _ =? _)%nat = false |- _ =>
           apply all_not_None in E;
           repeat match goal with
                  | H : Forall _ (_ :: _) |- _ =>
                      inversion H; subst; clear H
                  end
       end.
  all: repeat match goal with
         | E : py_int _ (args_get _ _) = Ok _ |- _ =>
             apply py_int_args_get in E; destruct E as (? & ? & ? & ? & ->)
         | E : is_None (OVal (args_get _ _)) = false |- _ =>
             apply args_get_not_None in E; destruct E as (? & ?)
         end.
  all: repeat match goal with
         | H1 : ?a = Some ?x, H2 : ?a = Some ?y |- _ =>
             assert (y = x) by congruence; subst y; clear H2
         end.
  all: match goal with
       | E : negb (py_in _ _) = false |- _ =>
           apply negb_false_iff in E; unfold py_in in E;
           apply bool_decide_eq_true_1 in E
       end.
  all: cbn [env_self env_chr env_start env_end env_resolution env_limit_chr
            env_limit_start env_limit_end values env_log].
  all: repeat match goal with
         | H : args _ !! ?k = Some ?s |- _ =>
             rewrite (args_get_present _ _ _ H) in *
         end.
  - (* the limiting bounds were supplied and coerced *)
    do 5 eexists.
    split; [unfold range_primary_valid;
            repeat match goal with
                   | |- _ /\ _ => split
                   | |- exists _, _ => eexists
                   end; eassumption|].
    do 6 (split; [reflexivity|]).
    split.
    + right. do 5 eexists. repeat split; eassumption.
    + do 4 eexists. repeat split; try eassumption.
      now rewrite <- !app_assoc.
  - (* no limiting bound *)
    match goal with
    | E : _ || _ = false |- _ =>
        apply orb_false_elim in E; destruct E as [E1 E2];
        apply negb_false_iff in E1, E2;
        pose proof (args_get_is_None _ _ E1) as Hls;
        pose proof (args_get_is_None _ _ E2) as Hle
    end.
    unfold absent in Hls, Hle.
    assert (Hls' : args_get req "limit_start" = VNone)
      by (unfold args_get; now rewrite Hls).
    assert (Hle' : args_get req "limit_end" = VNone)
      by (unfold args_get; now rewrite Hle).
    rewrite Hls', Hle' in *.
    do 5 eexists.
    split; [unfold range_primary_valid;
            repeat match goal with
                   | |- _ /\ _ => split
                   | |- exists _, _ => eexists
                   end; eassumption|].
    do 6 (split; [reflexivity|]).
    split.
    + left. repeat split; assumption.
    + do 4 eexists. repeat split; try eassumption.
      now rewrite <- !app_assoc.
Qed.

(** X15. A range envelope echoes the request it serves: its link is the
    request URL, its chromosome is the one received, its start, end and
    resolution are the integers read from the primary parameters, which
    were all present.  Its limiting region is never half specified:
    either no bound was sent and both bounds are [None], or the limiting
    chromosome and both bounds were sent and the bounds are the integers
    read from them. *)
Theorem served_envelope_echoes_request :
  forall int_of_str rd user_id req t e t',
    GetInteractions_get int_of_str rd user_id req t = (Ok (RRange e), t') ->
    exists f c zs ze zr,
      range_primary_valid int_of_str req f c zs ze zr
      /\ env_self e = url req
      /\ env_chr e = VStr c /\ env_start e = VInt zs /\ env_end e = VInt ze
      /\ env_resolution e = VInt zr
      /\ env_limit_chr e = args_get req "limit_chr"
      /\ ((absent req "limit_start" /\ absent req "limit_end"
           /\ env_limit_start e = VNone /\ env_limit_end e = VNone)
          \/ (exists lc ls le zl zle,
                 args req !! "limit_chr" = Some lc
                 /\ args req !! "limit_start" = Some ls
                 /\ args req !! "limit_end" = Some le
                 /\ int_of_str ls = Some zl /\ int_of_str le = Some zle
                 /\ env_limit_start e = VInt zl
                 /\ env_limit_end e = VInt zle)).
Proof.
  intros int_of_str rd user_id req t e t' H.
  destruct (GetInteractions_served_inv _ _ _ _ _ _ _ H)
    as (f & c & zs & ze & zr & Hv & Hself & Hc & Hs & He & Hr & Hlc & Hlim
        & _).
  exists f, c, zs, ze, zr. repeat (split; [assumption|]). exact Hlim.
Qed.

Lemma served_envelope_echoes_request_witness :
  exists e t',
    GetInteractions_get int_of_decimal sample_reader (Some sample_user)
      full_limit_request [] = (Ok (RRange e), t')
    /\ exists f c zs ze zr,
         range_primary_valid int_of_decimal full_limit_request f c zs ze zr
         /\ env_self e = url full_limit_request
         /\ env_chr e = VStr c /\ env_start e = VInt zs
         /\ env_end e = VInt ze
         /\ env_resolution e = VInt zr
         /\ env_limit_chr e = args_get full_limit_request "limit_chr"
         /\ ((absent full_limit_request "limit_start"
              /\ absent full_limit_request "limit_end"
              /\ env_limit_start e = VNone /\ env_limit_end e = VNone)
             \/ (exists lc ls le zl zle,
                    args full_limit_request !! "limit_chr" = Some lc
                    /\ args full_limit_request !! "limit_start" = Some ls
                    /\ args full_limit_request !! "limit_end" = Some le
                    /\ int_of_decimal ls = Some zl
                    /\ int_of_decimal le = Some zle
                    /\ env_limit_start e = VInt zl
                    /\ env_limit_end e = VInt zle)).
Proof.
  do 2 eexists.
  assert (Hrun : GetInteractions_get int_of_decimal sample_reader
                   (Some sample_user) full_limit_request []
                 = (Ok (RRange _), _)) by (vm_compute; reflexivity).
  split; [exact Hrun|].
  exact (served_envelope_echoes_request _ _ _ _ _ _ _ Hrun).
Defined.

(** X16. A range envelope is the reader's answer: the resolution it names
    is in the details the reader returned for the handle, its values and
    its log are the results and the log that [get_range] returned for
    exactly the chromosome, bounds and limiting region the envelope shows
    (the log is passed on whole), and the reader was called four times:
    open, [get_details], [get_range], [close]. *)
Theorem served_envelope_is_reader_answer :
  forall int_of_str rd user_id req t e t',
    GetInteractions_get int_of_str rd user_id req t = (Ok (RRange e), t') ->
    exists uid f h d data,
      args req !! "file_id" = Some f
      /\ adjacency rd uid (VStr f) (Some (env_resolution e)) = Ok h
      /\ get_details rd h = Ok d
      /\ env_resolution e ∈ resolutions d
      /\ get_range rd h (env_chr e) (env_start e) (env_end e)
           (env_limit_chr e) (env_limit_start e) (env_limit_end e)
           (url_root req +:+ "mug/api/adjacency/getValue")
           (args_get req "no_links") = Ok data
      /\ values e = results data
      /\ env_log e = log data
      /\ t' = t ++ [EOpen uid (VStr f) (Some (env_resolution e));
                    EGetDetails;
                    EGetRange (env_chr e) (env_start e) (env_end e)
                      (env_limit_chr e) (env_limit_start e)
                      (env_limit_end e);
                    EClose].
Proof.
  intros int_of_str rd user_id req t e t' H.
  destruct (GetInteractions_served_inv _ _ _ _ _ _ _ H)
    as (f & c & zs & ze & zr & (Hf & _) & _ & _ & _ & _ & Hr & _ & _
        & uid & h & d & data & Hopen & Hdet & Hin & Hrange & Hval & Hlog
        & Ht).
  rewrite Hr. exists uid, f, h, d, data.
  repeat (split; [assumption|]). exact Ht.
Qed.

Lemma served_envelope_is_reader_answer_witness :
  exists e t',
    GetInteractions_get int_of_decimal sample_reader (Some sample_user)
      full_limit_request [] = (Ok (RRange e), t')
    /\ exists uid f h d data,
         args full_limit_request !! "file_id" = Some f
         /\ adjacency sample_reader uid (VStr f) (Some (env_resolution e))
            = Ok h
         /\ get_details sample_reader h = Ok d
         /\ env_resolution e ∈ resolutions d
         /\ get_range sample_reader h (env_chr e) (env_start e) (env_end e)
              (env_limit_chr e) (env_limit_start e) (env_limit_end e)
              (url_root full_limit_request +:+ "mug/api/adjacency/getValue")
              (args_get full_limit_request "no_links") = Ok data
         /\ values e = results data
         /\ env_log e = log data
         /\ t' = [] ++ [EOpen uid (VStr f) (Some (env_resolution e));
                        EGetDetails;
                        EGetRange (env_chr e) (env_start e) (env_end e)
                          (env_limit_chr e) (env_limit_start e)
                          (env_limit_end e);
                        EClose].
Proof.
  do 2 eexists.
  assert (Hrun : GetInteractions_get int_of_decimal sample_reader
                   (Some sample_user) full_limit_request []
                 = (Ok (RRange _), _)) by (vm_compute; reflexivity).
  split; [exact Hrun|].
  exact (served_envelope_is_reader_answer _ _ _ _ _ _ _ Hrun).
Defined.

(** ** The parameters section *)

(** X17. The parameters section of a usage block depends only on which
    names the caller lists: two required-parameter lists with the same
    members, in any order and with any repetition, are described alike,
    and every entry is the table's entry for a listed name. *)
Theorem used_param_depends_on_names :
  forall l1 l2 : list string,
    (forall k, k ∈ l1 <-> k ∈ l2) ->
    used_param l1 = used_param l2
    /\ forall k d, used_param l1 !! k = Some d ->
                   k ∈ l1 /\ parameters !! k = Some d.
Proof.
  intros l1 l2 Hsame. split.
  - apply map_eq. intros k. rewrite !used_param_lookup.
    destruct (decide (k ∈ l1)) as [H1|H1], (decide (k ∈ l2)) as [H2|H2];
      try reflexivity; exfalso; [apply H2 | apply H1]; now apply Hsame.
  - intros k d. rewrite used_param_lookup.
    destruct (decide (k ∈ l1)); [auto | discriminate].
Qed.

Lemma used_param_depends_on_names_witness :
  (forall k, k ∈ ["res"; "file_id"; "res"; "chr_id"]
             <-> k ∈ ["chr_id"; "file_id"; "res"])
  /\ used_param ["res"; "file_id"; "res"; "chr_id"]
     = used_param ["chr_id"; "file_id"; "res"]
  /\ forall k d,
       used_param ["res"; "file_id"; "res"; "chr_id"] !! k = Some d ->
       k ∈ ["res"; "file_id"; "res"; "chr_id"] /\ parameters !! k = Some d.
Proof.
  assert (Hsame : forall k, k ∈ ["res"; "file_id"; "res"; "chr_id"]
                            <-> k ∈ ["chr_id"; "file_id"; "res"]).
  { intros k. rewrite !elem_of_cons. intuition. }
  split; [exact Hsame|].
  exact (used_param_depends_on_names _ _ Hsame).
Defined.

(** ** The point handler and the resolution *)


